(** * backend-marketplace-ia: the gateway of [main.py], embedded and verified

    The handlers of [main.py] are embedded as computations in a state and
    exception monad over the process-wide state of the server (the two
    catalog caches and the static file store).  Everything the handlers
    obtain from outside the process (the clock, the identity provider, the
    HTTP client, the random identifier, the environment variables) is read
    from an explicit environment [Env], so that every handler is an
    executable function. *)

From Stdlib Require Import ZArith Lia Ascii String.
From stdpp Require Import base option list strings pretty gmap.

Local Open Scope string_scope.
Local Open Scope list_scope.
Local Open Scope Z_scope.

Set Warnings "-register-all".

(** ** Python values *)

(** What [response.json()] returns, and what claims, payloads and handler
    results are made of.  [JNull] is Python's [None]. *)
Inductive json : Type :=
| JNull
| JBool (b : bool)
| JNum (n : Z)
| JStr (s : string)
| JArr (items : list json)
| JObj (fields : list (string * json)).

(** Python's truth value of an object, as tested by [if x and ...]. *)
Definition truthy (v : json) : bool :=
  match v with
  | JNull => false
  | JBool b => b
  | JNum n => negb (n =? 0)
  | JStr s => negb (String.eqb s "")
  | JArr items => match items with [] => false | _ :: _ => true end
  | JObj fields => match fields with [] => false | _ :: _ => true end
  end.

(** [d.get(k)]: the value under [k], or [None]. *)
Definition dict_get (d : gmap string json) (k : string) : json :=
  default JNull (d !! k).

(** ** Exceptions *)

Inductive exc : Type :=
| HTTPException (status_code : Z) (detail : string)
                (headers : list (string * string))
| TimeoutException (msg : string)
| Exception (msg : string)
| RequestValidationError.

(** [str(e)]. *)
Definition str (e : exc) : string :=
  match e with
  | HTTPException status_code detail _ => pretty status_code +:+ ": " +:+ detail
  | TimeoutException msg => msg
  | Exception msg => msg
  | RequestValidationError => "validation error"
  end.

Definition is_timeout (e : exc) : bool :=
  match e with TimeoutException _ => true | _ => false end.

(** ** The HTTP client's responses *)

Record Response : Type := mkResponse {
  resp_status : Z;
  resp_text : string;
  (** outcome of [response.json()]: the decoded value, or the text of the
      decoding error *)
  resp_json : string + json;
  (** the text of the error that [raise_for_status] raises for it *)
  resp_error : string
}.

Definition is_success (r : Response) : bool :=
  (200 <=? resp_status r) && (resp_status r <=? 299).

(** ** Process state *)

Record Cache : Type := mkCache { data : json; timestamp : Z }.

Inductive call : Type :=
| HttpGet (url : string) (headers : list (string * option string))
| HttpPost (url : string) (payload : gmap string json) (timeout : Z)
| FileWrite (path : string) (content : list Byte.byte).

Record Server : Type := mkServer {
  voices_cache : Cache;
  avatars_cache : Cache;
  (** the files under the working directory, by path *)
  files : gmap string (list Byte.byte);
  (** the outbound calls and file writes made so far, oldest first *)
  calls : list call
}.

Definition CACHE_DURATION_SECONDS : Z := 3600.

Definition start : Server :=
  {| voices_cache := {| data := JNull; timestamp := 0 |};
     avatars_cache := {| data := JNull; timestamp := 0 |};
     files := ∅;
     calls := [] |}.

(** ** The world outside the process *)

Record Env : Type := mkEnv {
  (** [time.time()]: seconds since the epoch, taken as an integer; the
      handlers only subtract two readings and compare with 3600 *)
  time_time : Z;
  (** [firebase_admin.auth.verify_id_token] *)
  verify_id_token : string -> exc + gmap string json;
  (** [httpx.AsyncClient.get] and [post], by URL (and payload) *)
  client_get : string -> exc + Response;
  client_post : string -> gmap string json -> exc + Response;
  (** [str(uuid.uuid4())] *)
  uuid4 : string;
  (** [os.getenv] of the three variables read *)
  N8N_SECRET_KEY : option string;
  HEYGEN_API_KEY : option string;
  BACKEND_PUBLIC_URL : option string;
  (** [open(path, "wb")]: the text of the [OSError] that it raises for a
      reason other than the length of the name (a missing directory, a
      full disk), when it raises one *)
  open_fault : string -> option string;
  (** [str()] of a claim value inside an f-string *)
  py_str : json -> string
}.

(** ** The monad of handlers: state, and exceptions that keep the state *)

Definition M (A : Type) : Type := Server -> (exc + A) * Server.

#[local] Instance M_ret : MRet M := fun A (x : A) s => (inr x, s).

#[local] Instance M_bind : MBind M := fun A B (f : A -> M B) (m : M A) s =>
  match m s with
  | (inr x, s') => f x s'
  | (inl e, s') => (inl e, s')
  end.

Definition raise {A : Type} (e : exc) : M A := fun s => (inl e, s).

Definition lift {A : Type} (r : exc + A) : M A := fun s => (r, s).

Definition try_except {A : Type} (body : M A) (handler : exc -> M A) : M A :=
  fun s =>
    match body s with
    | (inl e, s') => handler e s'
    | (inr x, s') => (inr x, s')
    end.

Definition get_server : M Server := fun s => (inr s, s).

(** The four ways in which a handler changes the state. *)
Definition log_call (c : call) (s : Server) : Server :=
  {| voices_cache := voices_cache s;
     avatars_cache := avatars_cache s;
     files := files s;
     calls := calls s ++ [c] |}.

Definition put_voices (c : Cache) (s : Server) : Server :=
  {| voices_cache := c;
     avatars_cache := avatars_cache s;
     files := files s;
     calls := calls s |}.

Definition put_avatars (c : Cache) (s : Server) : Server :=
  {| voices_cache := voices_cache s;
     avatars_cache := c;
     files := files s;
     calls := calls s |}.

Definition put_file (path : string) (content : list Byte.byte) (s : Server)
    : Server :=
  {| voices_cache := voices_cache s;
     avatars_cache := avatars_cache s;
     files := <[path := content]> (files s);
     calls := calls s |}.

Definition emit (c : call) : M unit := fun s => (inr tt, log_call c s).

Definition set_voices_cache (c : Cache) : M unit :=
  fun s => (inr tt, put_voices c s).

Definition set_avatars_cache (c : Cache) : M unit :=
  fun s => (inr tt, put_avatars c s).

(** ** The HTTP client, as the handlers use it *)

Definition HEYGEN_API_URL : string := "https://api.heygen.com/v2".

Definition HEADERS (env : Env) : list (string * option string) :=
  [("accept", Some "application/json"); ("x-api-key", HEYGEN_API_KEY env)].

Definition http_get (env : Env) (url : string)
    (headers : list (string * option string)) : M Response :=
  _ ← emit (HttpGet url headers);
  lift (client_get env url).

Definition http_post (env : Env) (url : string) (payload : gmap string json)
    (timeout : Z) : M Response :=
  _ ← emit (HttpPost url payload timeout);
  lift (client_post env url payload).

Definition raise_for_status (r : Response) : M unit :=
  if is_success r then mret tt else raise (Exception (resp_error r)).

Definition response_json (r : Response) : M json :=
  match resp_json r with
  | inr v => mret v
  | inl msg => raise (Exception msg)
  end.

(** ** The catalog endpoints *)

Definition get_voices (env : Env) (user_data : gmap string json) : M json :=
  let current_time := time_time env in
  s ← get_server;
  if truthy (data (voices_cache s))
     && (current_time - timestamp (voices_cache s) <? CACHE_DURATION_SECONDS)
  then mret (data (voices_cache s))
  else
    try_except
      (response ← http_get env (HEYGEN_API_URL +:+ "/voices") (HEADERS env);
       _ ← raise_for_status response;
       new_data ← response_json response;
       s1 ← get_server;
       _ ← set_voices_cache
             {| data := new_data; timestamp := timestamp (voices_cache s1) |};
       _ ← set_voices_cache {| data := new_data; timestamp := current_time |};
       mret new_data)
      (fun e => raise (HTTPException 502
         ("Error al contactar la API de HeyGen: " +:+ str e) [])).

Definition get_avatars (env : Env) (user_data : gmap string json) : M json :=
  let current_time := time_time env in
  s ← get_server;
  if truthy (data (avatars_cache s))
     && (current_time - timestamp (avatars_cache s) <? CACHE_DURATION_SECONDS)
  then mret (data (avatars_cache s))
  else
    try_except
      (response ← http_get env (HEYGEN_API_URL +:+ "/avatars") (HEADERS env);
       _ ← raise_for_status response;
       new_data ← response_json response;
       s1 ← get_server;
       _ ← set_avatars_cache
             {| data := new_data; timestamp := timestamp (avatars_cache s1) |};
       _ ← set_avatars_cache {| data := new_data; timestamp := current_time |};
       mret new_data)
      (fun e => raise (HTTPException 502
         ("Error al contactar la API de HeyGen: " +:+ str e) [])).

(** ** The identity verifier *)

Record HTTPAuthorizationCredentials : Type := mkCredentials {
  scheme : string;
  credentials : string
}.

Definition get_current_user (env : Env) (token : HTTPAuthorizationCredentials)
    : M (gmap string json) :=
  try_except
    (let id_token := credentials token in
     decoded_token ← lift (verify_id_token env id_token);
     mret decoded_token)
    (fun e => raise (HTTPException 401
       ("Token de autorización inválido: " +:+ str e)
       [("WWW-Authenticate", "Bearer")])).

(** ** The shared-secret gate *)

(** Truth value of [os.getenv(...)]: [None] and the empty string are false. *)
Definition truthy_env (v : option string) : bool :=
  match v with
  | None => false
  | Some s => negb (String.eqb s "")
  end.

Definition verify_n8n_secret (env : Env) (x_n8n_secret : option string)
    : M bool :=
  if negb (truthy_env (N8N_SECRET_KEY env))
  then raise (HTTPException 500
         "La clave secreta del servidor no está configurada." [])
  else if bool_decide (x_n8n_secret ≠ N8N_SECRET_KEY env)
  then raise (HTTPException 403
         "Acceso denegado: Clave secreta inválida." [])
  else mret true.

(** ** The automation proxy *)

Record N8NBody : Type := mkN8NBody {
  message : string;
  botId : string;
  avatarId : option string;
  voiceId : option string;
  videoWidth : option Z;
  videoHeight : option Z;
  type : string
}.

Definition opt_json {A : Type} (f : A -> json) (o : option A) : json :=
  match o with
  | Some x => f x
  | None => JNull
  end.

(** [body.dict()]: the seven declared fields, and nothing else. *)
Definition N8NBody_dict (body : N8NBody) : gmap string json :=
  list_to_map
    [("message", JStr (message body));
     ("botId", JStr (botId body));
     ("avatarId", opt_json JStr (avatarId body));
     ("voiceId", opt_json JStr (voiceId body));
     ("videoWidth", opt_json JNum (videoWidth body));
     ("videoHeight", opt_json JNum (videoHeight body));
     ("type", JStr (type body))].

Definition n8n_webhook_url : string :=
  "https://automation.luminotest.com/webhook/53816d93-2be0-4df2-8dec-031847e0bed1".

Definition proxy_to_n8n (env : Env) (body : N8NBody)
    (user_data : gmap string json) : M json :=
  let user_uid := dict_get user_data "uid" in
  let n8n_payload := N8NBody_dict body in
  let n8n_payload := <["uid" := user_uid]> n8n_payload in
  try_except
    (n8n_response ← http_post env n8n_webhook_url n8n_payload 60;
     _ ← raise_for_status n8n_response;
     let response_text := resp_text n8n_response in
     mret (JStr (resp_text n8n_response)))
    (fun e =>
       match e with
       | TimeoutException _ =>
           raise (HTTPException 504
             "Timeout: n8n tardó demasiado en responder." [])
       | _ =>
           raise (HTTPException 502 ("Error al contactar n8n: " +:+ str e) [])
       end).

(** ** The upload receiver *)

(** [p.rfind(c)]: the highest index at which [c] occurs in [p], or -1. *)
Fixpoint rfind_from (c : ascii) (p : string) (i last : Z) : Z :=
  match p with
  | EmptyString => last
  | String a p' => rfind_from c p' (i + 1) (if Ascii.eqb a c then i else last)
  end.

Definition rfind (c : ascii) (p : string) : Z := rfind_from c p 0 (-1).

(** The slices [p[:i]], [p[i:]] and [p[i:j]] for indices that are not
    negative. *)
Definition slice_to (p : string) (i : Z) : string :=
  substring 0 (Z.to_nat i) p.

Definition slice_from (p : string) (i : Z) : string :=
  substring (Z.to_nat i) (String.length p - Z.to_nat i) p.

Definition slice (p : string) (i j : Z) : string :=
  substring (Z.to_nat i) (Z.to_nat (j - i)) p.

(** The loop of [os.path.splitext] that skips leading dots: [true] when it
    meets a character other than a dot before [dotIndex]. *)
Fixpoint skip_leading_dots (fuel : nat) (p : string)
    (filenameIndex dotIndex : Z) : bool :=
  match fuel with
  | O => false
  | S fuel' =>
      if filenameIndex <? dotIndex then
        if negb (String.eqb (slice p filenameIndex (filenameIndex + 1)) ".")
        then true
        else skip_leading_dots fuel' p (filenameIndex + 1) dotIndex
      else false
  end.

(** [os.path.splitext] of a POSIX path. *)
Definition splitext (p : string) : string * string :=
  let sepIndex := rfind "/"%char p in
  let dotIndex := rfind "."%char p in
  if (dotIndex >? sepIndex)
     && skip_leading_dots (Z.to_nat (dotIndex - (sepIndex + 1))) p
          (sepIndex + 1) dotIndex
  then (slice_to p dotIndex, slice_from p dotIndex)
  else (p, "").

(** The longest name that a directory entry can have, in bytes. *)
Definition NAME_MAX : nat := 255.

(** The last component of a path. *)
Definition basename (path : string) : string :=
  slice_from path (rfind "/"%char path + 1).

(** [open(path, "wb")]: raises [OSError], and creates nothing, when the
    last component of the path is longer than [NAME_MAX] or when the file
    system refuses for another reason. *)
Definition open_wb (env : Env) (path : string) : M unit :=
  if (NAME_MAX <? String.length (basename path))%nat
  then raise (Exception
                ("[Errno 36] File name too long: '" +:+ path +:+ "'"))
  else
    match open_fault env path with
    | Some msg => raise (Exception msg)
    | None => mret tt
    end.

(** [buffer.write(content)] on the file just opened. *)
Definition buffer_write (path : string) (content : list Byte.byte) : M unit :=
  fun s => (inr tt, put_file path content (log_call (FileWrite path content) s)).

(** [with open(path, "wb") as buffer: buffer.write(content)]. *)
Definition write_file (env : Env) (path : string) (content : list Byte.byte)
    : M unit :=
  _ ← open_wb env path;
  buffer_write path content.

Record UploadFile : Type := mkUploadFile {
  filename : string;
  content : list Byte.byte
}.

Definition upload_image_from_n8n (env : Env) (uid : string)
    (image_file : UploadFile) (is_secret_valid : bool) : M json :=
  let file_extension := (splitext (filename image_file)).2 in
  let unique_filename := uuid4 env +:+ file_extension in
  let file_path := "static/images/" +:+ unique_filename in
  _ ← write_file env file_path (content image_file);
  let base_url := default "http://localhost:8000" (BACKEND_PUBLIC_URL env) in
  let full_image_url := base_url +:+ "/" +:+ file_path in
  mret (JObj [("imageUrl", JStr full_image_url)]).

(** ** The two remaining handlers *)

Definition get_my_info (env : Env) (user_data : gmap string json) : M json :=
  let uid := dict_get user_data "uid" in
  let email := dict_get user_data "email" in
  mret (JObj [("message",
    JStr ("¡Hola, " +:+ py_str env email +:+ "! Tu UID de Firebase es: "
          +:+ py_str env uid))]).

Definition root : M json :=
  mret (JObj [("message", JStr "Este es un endpoint público.")]).

(** ** Requests and routing

    The framework resolves the dependencies of a handler ([Depends]) before
    it validates the body or the form, and calls the handler last. *)

Record Request : Type := mkRequest {
  (** the bearer credential that [HTTPBearer()] extracts from the
      [Authorization] header, when it extracts one *)
  authorization : option HTTPAuthorizationCredentials;
  (** the [x-n8n-secret] header *)
  x_n8n_secret : option string;
  (** the decoded JSON object of the body *)
  json_body : gmap string json;
  (** the form fields [uid] and [image_file] *)
  form_uid : option string;
  form_image_file : option UploadFile
}.

(** [HTTPBearer()], with its default [auto_error]: a request without a
    usable bearer credential is refused by the scheme itself. *)
Definition security_scheme (req : Request) : M HTTPAuthorizationCredentials :=
  match authorization req with
  | Some token => mret token
  | None => raise (HTTPException 401 "Not authenticated"
                     [("WWW-Authenticate", "Bearer")])
  end.

(** [Depends(get_current_user)], itself depending on [security_scheme]. *)
Definition current_user (env : Env) (req : Request) : M (gmap string json) :=
  token ← security_scheme req;
  get_current_user env token.

Definition field_str (raw : gmap string json) (k : string) : option string :=
  match raw !! k with
  | Some (JStr s) => Some s
  | _ => None
  end.

Definition field_opt_str (raw : gmap string json) (k : string)
    : option (option string) :=
  match raw !! k with
  | None | Some JNull => Some None
  | Some (JStr s) => Some (Some s)
  | Some _ => None
  end.

Definition field_opt_int (raw : gmap string json) (k : string)
    : option (option Z) :=
  match raw !! k with
  | None | Some JNull => Some None
  | Some (JNum n) => Some (Some n)
  | Some _ => None
  end.

(** Validation of a request body against the model [N8NBody]: the seven
    declared fields are read, any other key of the body is dropped.  Values
    are taken as they are: the conversions that the validation library
    applies to an integer field (a numeric string, a boolean) are not
    made, and a body that needs one is refused here. *)
Definition N8NBody_validate (raw : gmap string json) : option N8NBody :=
  message ← field_str raw "message";
  botId ← field_str raw "botId";
  avatarId ← field_opt_str raw "avatarId";
  voiceId ← field_opt_str raw "voiceId";
  videoWidth ← field_opt_int raw "videoWidth";
  videoHeight ← field_opt_int raw "videoHeight";
  type ← field_str raw "type";
  Some (mkN8NBody message botId avatarId voiceId videoWidth videoHeight type).

(** The routes that [main.py] declares with a decorator.  The mount of
    the directory [static] under /static is served by the framework's own
    application and has no handler here. *)
Inductive route : Type :=
| GET_root
| GET_api_me
| GET_api_voices
| GET_api_avatars
| POST_api_n8n
| POST_api_upload_image.

(** A request whose body has been parsed: the dependencies, then the
    validation of the body or the form, then the handler. *)
Definition serve (env : Env) (r : route) (req : Request) : M json :=
  match r with
  | GET_root => root
  | GET_api_me =>
      user_data ← current_user env req;
      get_my_info env user_data
  | GET_api_voices =>
      user_data ← current_user env req;
      get_voices env user_data
  | GET_api_avatars =>
      user_data ← current_user env req;
      get_avatars env user_data
  | POST_api_n8n =>
      user_data ← current_user env req;
      match N8NBody_validate (json_body req) with
      | Some body => proxy_to_n8n env body user_data
      | None => raise RequestValidationError
      end
  | POST_api_upload_image =>
      is_secret_valid ← verify_n8n_secret env (x_n8n_secret req);
      match form_uid req, form_image_file req with
      | Some uid, Some image_file =>
          upload_image_from_n8n env uid image_file is_secret_valid
      | _, _ => raise RequestValidationError
      end
  end.

Definition bearer_protected (r : route) : bool :=
  match r with
  | GET_api_me | GET_api_voices | GET_api_avatars | POST_api_n8n => true
  | GET_root | POST_api_upload_image => false
  end.

(** ** What arrives on the wire

    Before it resolves any dependency, the framework reads the body of a
    request to a route that declares one: JSON for /api/n8n, a multipart
    form for /api/upload-image.  A body that cannot be parsed ends the
    request there, whatever its headers. *)

Inductive body_kind : Type := JsonBody | FormBody.

Definition reads_body (r : route) : option body_kind :=
  match r with
  | POST_api_n8n => Some JsonBody
  | POST_api_upload_image => Some FormBody
  | GET_root | GET_api_me | GET_api_voices | GET_api_avatars => None
  end.

Record Incoming : Type := mkIncoming {
  request : Request;
  (** the detail with which the framework refuses the body, when it
      cannot be parsed as what the route reads; the body fields of
      [request] mean nothing then *)
  body_fault : option string
}.

Definition handle (env : Env) (r : route) (i : Incoming) : M json :=
  match reads_body r, body_fault i with
  | Some JsonBody, Some _ => raise RequestValidationError
  | Some FormBody, Some detail => raise (HTTPException 400 detail [])
  | _, _ => serve env r (request i)
  end.

(** ** The body of a successful response

    A handler's value is sent as [JSONResponse] renders it:
    [json.dumps(value, ensure_ascii=False, separators=(",", ":"))]. *)

Definition quote : ascii := "034"%char.

Definition hex_digit (n : nat) : ascii :=
  ascii_of_nat (if (n <? 10)%nat then 48 + n else 87 + n).

(** The replacement of one character inside a JSON string. *)
Definition escape (c : ascii) : string :=
  let n := nat_of_ascii c in
  if (n =? 34)%nat then String "092" (String "034" EmptyString)
  else if (n =? 92)%nat then String "092" (String "092" EmptyString)
  else if (n =? 10)%nat then String "092" (String "n" EmptyString)
  else if (n =? 13)%nat then String "092" (String "r" EmptyString)
  else if (n =? 9)%nat then String "092" (String "t" EmptyString)
  else if (n =? 8)%nat then String "092" (String "b" EmptyString)
  else if (n =? 12)%nat then String "092" (String "f" EmptyString)
  else if (n <? 32)%nat then
    String "092" (String "u" (String "0" (String "0"
      (String (hex_digit (n / 16)) (String (hex_digit (n mod 16))
         EmptyString)))))
  else String c EmptyString.

Fixpoint escape_all (s : string) : string :=
  match s with
  | EmptyString => EmptyString
  | String c rest => escape c +:+ escape_all rest
  end.

(** A Python [str] as a JSON string. *)
Definition encode_basestring (s : string) : string :=
  String quote (escape_all s +:+ String quote EmptyString).

Fixpoint dumps (v : json) : string :=
  match v with
  | JNull => "null"
  | JBool true => "true"
  | JBool false => "false"
  | JNum n => pretty n
  | JStr s => encode_basestring s
  | JArr items =>
      "[" +:+
      (fix elements (l : list json) : string :=
         match l with
         | [] => EmptyString
         | x :: rest =>
             match rest with
             | [] => dumps x
             | _ :: _ => dumps x +:+ "," +:+ elements rest
             end
         end) items
      +:+ "]"
  | JObj fields =>
      "{" +:+
      (fix members (l : list (string * json)) : string :=
         match l with
         | [] => EmptyString
         | (k, x) :: rest =>
             match rest with
             | [] => encode_basestring k +:+ ":" +:+ dumps x
             | _ :: _ =>
                 encode_basestring k +:+ ":" +:+ dumps x +:+ ","
                 +:+ members rest
             end
         end) fields
      +:+ "}"
  end.

Definition response_body (value : json) : string := dumps value.

(** The body of the answer, when the handler returned a value. *)
Definition success_body (outcome : exc + json) : option string :=
  match outcome with
  | inr value => Some (response_body value)
  | inl _ => None
  end.

(** * Properties of the handlers *)

(** ** Vocabulary *)

Inductive resource : Type := Voices | Avatars.

Definition catalog_route (k : resource) : route :=
  match k with
  | Voices => GET_api_voices
  | Avatars => GET_api_avatars
  end.

Definition entry (k : resource) (s : Server) : Cache :=
  match k with
  | Voices => voices_cache s
  | Avatars => avatars_cache s
  end.

Definition put_entry (k : resource) (c : Cache) (s : Server) : Server :=
  match k with
  | Voices => put_voices c s
  | Avatars => put_avatars c s
  end.

Definition catalog_url (k : resource) : string :=
  match k with
  | Voices => HEYGEN_API_URL +:+ "/voices"
  | Avatars => HEYGEN_API_URL +:+ "/avatars"
  end.

Definition fetch_call (env : Env) (k : resource) : call :=
  HttpGet (catalog_url k) (HEADERS env).

(** The test that guards the cached branch of a catalog handler. *)
Definition served_from_cache (env : Env) (c : Cache) : bool :=
  truthy (data c)
  && (time_time env - timestamp c <? CACHE_DURATION_SECONDS).

Definition bad_gateway (msg : string) : exc :=
  HTTPException 502 ("Error al contactar la API de HeyGen: " +:+ msg) [].

(** The request carries a bearer credential that the identity provider
    accepts, with claims [user_data]. *)
Definition verified (env : Env) (req : Request) (user_data : gmap string json)
    : Prop :=
  exists token,
    authorization req = Some token
    /\ verify_id_token env (credentials token) = inr user_data.

(** The ways in which the fetch of a catalog fails, with the error text. *)
Inductive fetch_fails (env : Env) (k : resource) : string -> Prop :=
| fails_in_transit e :
    client_get env (catalog_url k) = inl e ->
    fetch_fails env k (str e)
| fails_by_status r :
    client_get env (catalog_url k) = inr r ->
    is_success r = false ->
    fetch_fails env k (resp_error r)
| fails_in_decoding r msg :
    client_get env (catalog_url k) = inr r ->
    is_success r = true ->
    resp_json r = inl msg ->
    fetch_fails env k msg.

(** The fetch of a catalog succeeds with the decoded value [v]. *)
Definition fetch_gives (env : Env) (k : resource) (v : json) : Prop :=
  exists r,
    client_get env (catalog_url k) = inr r
    /\ is_success r = true
    /\ resp_json r = inr v.

Definition server_misconfigured : exc :=
  HTTPException 500 "La clave secreta del servidor no está configurada." [].

Definition forbidden : exc :=
  HTTPException 403 "Acceso denegado: Clave secreta inválida." [].

(** The status line that the framework derives from the outcome of a
    request. *)
Definition status_of (outcome : exc + json) : Z :=
  match outcome with
  | inr _ => 200
  | inl (HTTPException status_code _ _) => status_code
  | inl RequestValidationError => 422
  | inl _ => 500
  end.


Definition not_authenticated : exc :=
  HTTPException 401 "Not authenticated" [("WWW-Authenticate", "Bearer")].

Definition gateway_timeout : exc :=
  HTTPException 504 "Timeout: n8n tardó demasiado en responder." [].

Definition webhook_failed (msg : string) : exc :=
  HTTPException 502 ("Error al contactar n8n: " +:+ msg) [].

(** The payload that leaves for the webhook. *)
Definition outgoing (body : N8NBody) (user_data : gmap string json)
    : gmap string json :=
  <["uid" := dict_get user_data "uid"]> (N8NBody_dict body).

Definition webhook_call (body : N8NBody) (user_data : gmap string json)
    : call :=
  HttpPost n8n_webhook_url (outgoing body user_data) 60.

(** The request [req] with its body replaced by [raw]. *)
Definition with_body (raw : gmap string json) (req : Request) : Request :=
  {| authorization := authorization req;
     x_n8n_secret := x_n8n_secret req;
     json_body := raw;
     form_uid := form_uid req;
     form_image_file := form_image_file req |}.

Definition storage_path (env : Env) (image_file : UploadFile) : string :=
  "static/images/" +:+ uuid4 env +:+ (splitext (filename image_file)).2.

(** ** Runs of the server *)

(** One request, with the world in which it is served. *)
Record step : Type := mkStep {
  step_env : Env;
  step_route : route;
  step_req : Request
}.

Definition after (st : step) (s : Server) : Server :=
  (serve (step_env st) (step_route st) (step_req st) s).2.

(** The state after the requests [steps], served one after the other. *)
Definition run (steps : list step) (s : Server) : Server :=
  fold_left (fun s st => after st s) steps s.

(** The request presents the secret that the server is configured with. *)
Definition authorized (env : Env) (req : Request) : Prop :=
  exists key,
    N8N_SECRET_KEY env = Some key /\ key <> ""
    /\ x_n8n_secret req = Some key.

(** The entry [c] is what a verified request of [steps] fetched from the
    upstream and stored. *)
Definition fetched_in (steps : list step) (k : resource) (c : Cache) : Prop :=
  exists st user_data,
    In st steps
    /\ step_route st = catalog_route k
    /\ verified (step_env st) (step_req st) user_data
    /\ fetch_gives (step_env st) k (data c)
    /\ timestamp c = time_time (step_env st).

(** The file [bytes] at [path] is what an authorized upload of [steps]
    wrote. *)
Definition uploaded_in (steps : list step) (path : string)
    (bytes : list Byte.byte) : Prop :=
  exists st image_file,
    In st steps
    /\ step_route st = POST_api_upload_image
    /\ authorized (step_env st) (step_req st)
    /\ form_image_file (step_req st) = Some image_file
    /\ path = storage_path (step_env st) image_file
    /\ bytes = content image_file.

(** The five ways in which one request can leave the state: untouched,
    with a catalog fetch that failed, with a catalog entry refreshed, with
    a post to the webhook, with a file written. *)
Inductive leaves (env : Env) (r : route) (req : Request) (s : Server)
    : Server -> Prop :=
| leaves_untouched :
    leaves env r req s s
| leaves_failed_fetch k user_data :
    r = catalog_route k ->
    verified env req user_data ->
    served_from_cache env (entry k s) = false ->
    leaves env r req s (log_call (fetch_call env k) s)
| leaves_refreshed k user_data v :
    r = catalog_route k ->
    verified env req user_data ->
    served_from_cache env (entry k s) = false ->
    fetch_gives env k v ->
    leaves env r req s
      (put_entry k {| data := v; timestamp := time_time env |}
         (log_call (fetch_call env k) s))
| leaves_posted user_data body :
    r = POST_api_n8n ->
    verified env req user_data ->
    N8NBody_validate (json_body req) = Some body ->
    leaves env r req s (log_call (webhook_call body user_data) s)
| leaves_uploaded image_file :
    r = POST_api_upload_image ->
    authorized env req ->
    form_image_file req = Some image_file ->
    leaves env r req s
      (put_file (storage_path env image_file) (content image_file)
         (log_call
            (FileWrite (storage_path env image_file) (content image_file))
            s)).

(** The character [c] does not occur in [p]. *)
Definition without (c : ascii) (p : string) : Prop :=
  forall j, String.get j p <> Some c.


(** The keys of the payload that leaves for the webhook. *)
Definition payload_keys : gset string :=
  {[ "message"; "botId"; "avatarId"; "voiceId"; "videoWidth"; "videoHeight";
     "type"; "uid" ]}.

(** ** Sample worlds, on which the handlers are run *)

Definition alice : gmap string json :=
  {[ "uid" := JStr "uid-alice"; "email" := JStr "alice@example.org" ]}.

Definition bob : gmap string json :=
  {[ "uid" := JStr "uid-bob"; "email" := JStr "bob@example.org" ]}.

(** A provider that knows two tokens and rejects every other one. *)
Definition sample_provider (id_token : string) : exc + gmap string json :=
  if String.eqb id_token "token-alice" then inr alice
  else if String.eqb id_token "token-bob" then inr bob
  else inl (Exception "Invalid token").

Definition sample_str (v : json) : string :=
  match v with
  | JStr s => s
  | _ => "None"
  end.

Definition ok_response (body : string) (v : json) : Response :=
  {| resp_status := 200; resp_text := body; resp_json := inr v;
     resp_error := "" |}.

Definition unavailable : Response :=
  {| resp_status := 503; resp_text := "Service Unavailable";
     resp_json := inl "Expecting value"; resp_error := "Server error 503" |}.

(** A world at clock reading [now], in which every GET has the outcome
    [catalog] and every POST the outcome [webhook]. *)
Definition world (now : Z) (catalog webhook : exc + Response) : Env :=
  {| time_time := now;
     verify_id_token := sample_provider;
     client_get := fun _ => catalog;
     client_post := fun _ _ => webhook;
     uuid4 := "123e4567-e89b-42d3-a456-426614174000";
     N8N_SECRET_KEY := Some "s3cret";
     HEYGEN_API_KEY := Some "heygen-key";
     BACKEND_PUBLIC_URL := None;
     open_fault := fun _ => None;
     py_str := sample_str |}.

Definition bearer (id_token : string) : Request :=
  {| authorization := Some {| scheme := "Bearer"; credentials := id_token |};
     x_n8n_secret := None;
     json_body := ∅;
     form_uid := None;
     form_image_file := None |}.

Definition anonymous : Request :=
  {| authorization := None;
     x_n8n_secret := None;
     json_body := ∅;
     form_uid := None;
     form_image_file := None |}.

Definition one_voice : json :=
  JObj [("data", JObj [("voices", JArr [JStr "v1"])])].

Definition two_voices : json :=
  JObj [("data", JObj [("voices", JArr [JStr "v1"; JStr "v2"])])].

(** The state after a request at clock reading [t] has refreshed both
    catalogs with [v]. *)
Definition cached_at (t : Z) (v : json) : Server :=
  put_avatars {| data := v; timestamp := t |}
    (put_voices {| data := v; timestamp := t |} start).

Definition png : UploadFile :=
  {| filename := "photo.png";
     content := [Byte.x89; Byte.x50; Byte.x4e; Byte.x47] |}.

(** An upload that presents [secret] in its header. *)
Definition upload (secret : option string) : Request :=
  {| authorization := None;
     x_n8n_secret := secret;
     json_body := ∅;
     form_uid := Some "uid-alice";
     form_image_file := Some png |}.

Definition hello : gmap string json :=
  {[ "message" := JStr "hi"; "botId" := JStr "b1"; "type" := JStr "chat" ]}.

(** A chat request with body [raw], under the bearer token [id_token]. *)
Definition chat (id_token : string) (raw : gmap string json) : Request :=
  {| authorization := Some {| scheme := "Bearer"; credentials := id_token |};
     x_n8n_secret := None;
     json_body := raw;
     form_uid := None;
     form_image_file := None |}.

Definition hello_body : N8NBody :=
  {| message := "hi"; botId := "b1"; avatarId := None; voiceId := None;
     videoWidth := None; videoHeight := None; type := "chat" |}.

(** The same body, with a [uid] of the client's choosing added. *)
Definition spoofing : gmap string json :=
  <["uid" := JStr "uid-mallory"]> hello.



(** The request [req], its body parsed. *)
Definition parsed (req : Request) : Incoming :=
  {| request := req; body_fault := None |}.

(** The headers of [req], with a body on which the parser gave up with
    [detail]. *)
Definition unparsable (detail : string) (req : Request) : Incoming :=
  {| request := req; body_fault := Some detail |}.

(** ** Unfolding the handlers *)

Lemma get_voices_unfold env user_data s :
  get_voices env user_data s =
    if served_from_cache env (voices_cache s)
    then (inr (data (voices_cache s)), s)
    else
      let s' := log_call (fetch_call env Voices) s in
      match client_get env (catalog_url Voices) with
      | inl e => (inl (bad_gateway (str e)), s')
      | inr r =>
          if is_success r then
            match resp_json r with
            | inr v =>
                (inr v,
                 put_voices {| data := v; timestamp := time_time env |} s')
            | inl msg => (inl (bad_gateway msg), s')
            end
          else (inl (bad_gateway (resp_error r)), s')
      end.
Proof.
  unfold get_voices, served_from_cache, mbind, M_bind, get_server.
  destruct (truthy _ && _); [reflexivity|].
  unfold try_except, http_get, mbind, M_bind, emit, lift.
  fold (fetch_call env Voices).
  change (HEYGEN_API_URL +:+ "/voices") with (catalog_url Voices).
  destruct (client_get env (catalog_url Voices)) as [e|r]; [reflexivity|].
  unfold raise_for_status.
  destruct (is_success r); [|reflexivity].
  unfold response_json.
  destruct (resp_json r); reflexivity.
Qed.

Lemma get_avatars_unfold env user_data s :
  get_avatars env user_data s =
    if served_from_cache env (avatars_cache s)
    then (inr (data (avatars_cache s)), s)
    else
      let s' := log_call (fetch_call env Avatars) s in
      match client_get env (catalog_url Avatars) with
      | inl e => (inl (bad_gateway (str e)), s')
      | inr r =>
          if is_success r then
            match resp_json r with
            | inr v =>
                (inr v,
                 put_avatars {| data := v; timestamp := time_time env |} s')
            | inl msg => (inl (bad_gateway msg), s')
            end
          else (inl (bad_gateway (resp_error r)), s')
      end.
Proof.
  unfold get_avatars, served_from_cache, mbind, M_bind, get_server.
  destruct (truthy _ && _); [reflexivity|].
  unfold try_except, http_get, mbind, M_bind, emit, lift.
  fold (fetch_call env Avatars).
  change (HEYGEN_API_URL +:+ "/avatars") with (catalog_url Avatars).
  destruct (client_get env (catalog_url Avatars)) as [e|r]; [reflexivity|].
  unfold raise_for_status.
  destruct (is_success r); [|reflexivity].
  unfold response_json.
  destruct (resp_json r); reflexivity.
Qed.

Lemma upload_image_from_n8n_unfold env uid image_file ok s :
  upload_image_from_n8n env uid image_file ok s =
    if (NAME_MAX <? String.length (basename (storage_path env image_file)))%nat
    then
      (inl (Exception ("[Errno 36] File name too long: '"
                       +:+ storage_path env image_file +:+ "'")), s)
    else
      match open_fault env (storage_path env image_file) with
      | Some msg => (inl (Exception msg), s)
      | None =>
          (inr (JObj [("imageUrl",
                  JStr (default "http://localhost:8000"
                          (BACKEND_PUBLIC_URL env)
                        +:+ "/" +:+ storage_path env image_file))]),
           put_file (storage_path env image_file) (content image_file)
             (log_call
                (FileWrite (storage_path env image_file)
                   (content image_file)) s))
      end.
Proof.
  unfold upload_image_from_n8n, write_file, open_wb, mbind, M_bind.
  fold (storage_path env image_file).
  destruct (NAME_MAX <? _)%nat; [reflexivity|].
  destruct (open_fault env (storage_path env image_file)); reflexivity.
Qed.

(** ** The identity dependency *)

Lemma current_user_verified env req user_data s :
  verified env req user_data ->
  current_user env req s = (inr user_data, s).
Proof.
  intros (token & Hauth & Hver).
  unfold current_user, security_scheme, mbind, M_bind.
  rewrite Hauth. cbn.
  unfold get_current_user, try_except, mbind, M_bind, lift.
  rewrite Hver. reflexivity.
Qed.

Lemma current_user_rejected env req token e s :
  authorization req = Some token ->
  verify_id_token env (credentials token) = inl e ->
  current_user env req s =
    (inl (HTTPException 401 ("Token de autorización inválido: " +:+ str e)
            [("WWW-Authenticate", "Bearer")]), s).
Proof.
  intros Hauth Hver.
  unfold current_user, security_scheme, mbind, M_bind.
  rewrite Hauth. cbn.
  unfold get_current_user, try_except, mbind, M_bind, lift.
  rewrite Hver. reflexivity.
Qed.

Lemma current_user_missing env req s :
  authorization req = None ->
  current_user env req s =
    (inl not_authenticated, s).
Proof.
  intros Hauth.
  unfold current_user, security_scheme, mbind, M_bind.
  rewrite Hauth. reflexivity.
Qed.

(** Whatever the request, the dependency leaves the state alone. *)
Lemma current_user_state env req s : (current_user env req s).2 = s.
Proof.
  unfold current_user, security_scheme, mbind, M_bind.
  destruct (authorization req) as [token|]; [|reflexivity]. cbn.
  unfold get_current_user, try_except, mbind, M_bind, lift.
  destruct (verify_id_token env (credentials token)); reflexivity.
Qed.

Lemma serve_catalog env k req user_data s :
  verified env req user_data ->
  serve env (catalog_route k) req s =
    if served_from_cache env (entry k s)
    then (inr (data (entry k s)), s)
    else
      let s' := log_call (fetch_call env k) s in
      match client_get env (catalog_url k) with
      | inl e => (inl (bad_gateway (str e)), s')
      | inr r =>
          if is_success r then
            match resp_json r with
            | inr v =>
                (inr v,
                 put_entry k {| data := v; timestamp := time_time env |} s')
            | inl msg => (inl (bad_gateway msg), s')
            end
          else (inl (bad_gateway (resp_error r)), s')
      end.
Proof.
  intros Hv.
  destruct k; unfold serve, catalog_route, mbind, M_bind;
    rewrite (current_user_verified _ _ _ _ Hv).
  - apply get_voices_unfold.
  - apply get_avatars_unfold.
Qed.

(** ** The read-through cache *)

Lemma served_from_cache_true env c :
  served_from_cache env c = true <->
  truthy (data c) = true /\ time_time env - timestamp c < 3600.
Proof.
  unfold served_from_cache, CACHE_DURATION_SECONDS.
  rewrite andb_true_iff, Z.ltb_lt. reflexivity.
Qed.

Lemma served_from_cache_false env c :
  served_from_cache env c = false <->
  truthy (data c) = false \/ time_time env - timestamp c >= 3600.
Proof.
  unfold served_from_cache, CACHE_DURATION_SECONDS.
  rewrite andb_false_iff, Z.ltb_ge. split; (intros [H|H]; [left; exact H|right; lia]).
Qed.

(** On a miss the fetch is invoked, whatever its outcome. *)
Lemma miss_invokes_fetch env k req user_data s :
  verified env req user_data ->
  served_from_cache env (entry k s) = false ->
  calls (serve env (catalog_route k) req s).2 = calls s ++ [fetch_call env k].
Proof.
  intros Hv Hmiss. rewrite (serve_catalog _ _ _ _ _ Hv), Hmiss. cbn zeta.
  destruct (client_get env (catalog_url k)) as [e|r]; [reflexivity|].
  destruct (is_success r); [|reflexivity].
  destruct (resp_json r); [reflexivity|].
  destruct k; reflexivity.
Qed.

Lemma miss_refreshes env k req user_data s v :
  verified env req user_data ->
  served_from_cache env (entry k s) = false ->
  fetch_gives env k v ->
  serve env (catalog_route k) req s =
    (inr v,
     put_entry k {| data := v; timestamp := time_time env |}
       (log_call (fetch_call env k) s)).
Proof.
  intros Hv Hmiss (r & Hget & Hok & Hjson).
  rewrite (serve_catalog _ _ _ _ _ Hv), Hmiss. cbn zeta.
  rewrite Hget, Hok, Hjson. reflexivity.
Qed.

Lemma hit_serves_cache env k req user_data s :
  verified env req user_data ->
  served_from_cache env (entry k s) = true ->
  serve env (catalog_route k) req s = (inr (data (entry k s)), s).
Proof.
  intros Hv Hhit. rewrite (serve_catalog _ _ _ _ _ Hv), Hhit. reflexivity.
Qed.

(** C1, as the specification words it, fails on the code: a payload that
    exists but is empty is not served from the cache.  From the initial
    state, a verified request at clock reading 1000 stores the empty array
    that the upstream returned; the verified request at 1000 + 3599 calls
    the upstream again and returns the new catalog, not the stored one. *)
Lemma fresh_empty_payload_is_fetched_again :
  let first := world 1000 (inr (ok_response "[]" (JArr []))) (inl (Exception "")) in
  let second := world (1000 + 3599) (inr (ok_response "" one_voice))
                  (inl (Exception "")) in
  let s := (serve first GET_api_voices (bearer "token-alice") start).2 in
  voices_cache s = {| data := JArr []; timestamp := 1000 |}
  /\ data (voices_cache s) <> JNull
  /\ time_time second - timestamp (voices_cache s) < 3600
  /\ (serve second GET_api_voices (bearer "token-alice") s).1 = inr one_voice
  /\ calls (serve second GET_api_voices (bearer "token-alice") s).2
     = calls s ++ [fetch_call second Voices]
  /\ serve second GET_api_voices (bearer "token-alice") s
     <> (inr (data (voices_cache s)), s).
Proof.
  cbv zeta.
  repeat split; try reflexivity; discriminate.
Qed.

(** C1 (amended).  For a catalog request by a verified user: when the stored
    payload is truthy and [now - fetchedAt < 3600] the stored payload is
    returned and nothing else happens (no fetch, no change of state); when
    the stored payload is falsy ([None], or an empty or zero value) or
    [now - fetchedAt >= 3600] the upstream fetch is invoked, and when it
    succeeds its result is stored with [fetchedAt = now] and returned.  In
    particular a truthy entry fetched at [T] is served from the cache at
    [T + 3599], and a request at [T + 3601] fetches again. *)
Theorem catalog_read_through k env req user_data s :
  verified env req user_data ->
  (truthy (data (entry k s)) = true ->
   time_time env - timestamp (entry k s) < 3600 ->
   serve env (catalog_route k) req s = (inr (data (entry k s)), s))
  /\ (truthy (data (entry k s)) = false
      \/ time_time env - timestamp (entry k s) >= 3600 ->
      calls (serve env (catalog_route k) req s).2
        = calls s ++ [fetch_call env k]
      /\ forall v, fetch_gives env k v ->
           serve env (catalog_route k) req s =
             (inr v,
              put_entry k {| data := v; timestamp := time_time env |}
                (log_call (fetch_call env k) s)))
  /\ (truthy (data (entry k s)) = true ->
      time_time env = timestamp (entry k s) + 3599 ->
      serve env (catalog_route k) req s = (inr (data (entry k s)), s))
  /\ (time_time env = timestamp (entry k s) + 3601 ->
      calls (serve env (catalog_route k) req s).2
        = calls s ++ [fetch_call env k]).
Proof.
  intros Hv. repeat split.
  - intros Ht Hage. apply (hit_serves_cache _ _ _ _ _ Hv).
    apply served_from_cache_true. split; assumption.
  - apply (miss_invokes_fetch _ _ _ _ _ Hv).
    apply served_from_cache_false. assumption.
  - intros v Hfetch. apply (miss_refreshes _ _ _ _ _ _ Hv); [|assumption].
    apply served_from_cache_false. assumption.
  - intros Ht Hnow. apply (hit_serves_cache _ _ _ _ _ Hv).
    apply served_from_cache_true. split; [assumption|lia].
  - intros Hnow. apply (miss_invokes_fetch _ _ _ _ _ Hv).
    apply served_from_cache_false. right. lia.
Qed.

Lemma catalog_read_through_witness :
  serve (world 4599 (inl (Exception "unreachable")) (inl (Exception "")))
    GET_api_voices (bearer "token-alice") (cached_at 1000 one_voice)
  = (inr one_voice, cached_at 1000 one_voice)
  /\ serve (world 4601 (inr (ok_response "" two_voices)) (inl (Exception "")))
       GET_api_avatars (bearer "token-bob") (cached_at 1000 one_voice)
     = (inr two_voices,
        put_avatars {| data := two_voices; timestamp := 4601 |}
          (log_call
             (fetch_call
                (world 4601 (inr (ok_response "" two_voices))
                   (inl (Exception ""))) Avatars)
             (cached_at 1000 one_voice))).
Proof.
  split.
  - apply (proj1 (catalog_read_through Voices
             (world 4599 (inl (Exception "unreachable")) (inl (Exception "")))
             (bearer "token-alice") alice (cached_at 1000 one_voice)
             (ex_intro _ _ (conj eq_refl eq_refl)))).
    + reflexivity.
    + reflexivity.
  - apply (proj1 (proj2 (catalog_read_through Avatars
             (world 4601 (inr (ok_response "" two_voices)) (inl (Exception "")))
             (bearer "token-bob") bob (cached_at 1000 one_voice)
             (ex_intro _ _ (conj eq_refl eq_refl))))).
    + right. vm_compute. discriminate.
    + exists (ok_response "" two_voices). repeat split.
Defined.

(** ** Failure of the upstream *)

Lemma miss_fails env k req user_data s msg :
  verified env req user_data ->
  served_from_cache env (entry k s) = false ->
  fetch_fails env k msg ->
  serve env (catalog_route k) req s =
    (inl (bad_gateway msg), log_call (fetch_call env k) s).
Proof.
  intros Hv Hmiss Hfail.
  rewrite (serve_catalog _ _ _ _ _ Hv), Hmiss. cbn zeta.
  destruct Hfail as [e Hget | r Hget Hko | r msg Hget Hok Hjson].
  - rewrite Hget. reflexivity.
  - rewrite Hget, Hko. reflexivity.
  - rewrite Hget, Hok, Hjson. reflexivity.
Qed.

(** C2.  When the upstream fetch of a catalog request fails (an error of
    the HTTP call, a non-success status, or a body that does not decode),
    the endpoint answers 502 with a detail that carries the text of the
    error, and both cache entries are exactly what they were: an absent
    payload stays absent, a stale payload keeps its value and timestamp. *)
Theorem failed_fetch_is_bad_gateway k env req user_data s msg :
  verified env req user_data ->
  truthy (data (entry k s)) = false
  \/ time_time env - timestamp (entry k s) >= 3600 ->
  fetch_fails env k msg ->
  (serve env (catalog_route k) req s).1 =
    inl (HTTPException 502
           ("Error al contactar la API de HeyGen: " +:+ msg) [])
  /\ entry k (serve env (catalog_route k) req s).2 = entry k s
  /\ voices_cache (serve env (catalog_route k) req s).2 = voices_cache s
  /\ avatars_cache (serve env (catalog_route k) req s).2 = avatars_cache s.
Proof.
  intros Hv Hmiss Hfail.
  apply served_from_cache_false in Hmiss.
  rewrite (miss_fails _ _ _ _ _ _ Hv Hmiss Hfail).
  destruct k; repeat split.
Qed.

Lemma failed_fetch_is_bad_gateway_witness :
  let env := world 5000 (inl (Exception "All connection attempts failed"))
               (inl (Exception "")) in
  let s := cached_at 1000 one_voice in
  (serve env GET_api_voices (bearer "token-alice") s).1 =
    inl (HTTPException 502
           ("Error al contactar la API de HeyGen: "
            +:+ "All connection attempts failed") [])
  /\ entry Voices (serve env GET_api_voices (bearer "token-alice") s).2
     = {| data := one_voice; timestamp := 1000 |}.
Proof.
  cbv zeta.
  pose proof (failed_fetch_is_bad_gateway Voices
                (world 5000 (inl (Exception "All connection attempts failed"))
                   (inl (Exception "")))
                (bearer "token-alice") alice (cached_at 1000 one_voice)
                "All connection attempts failed"
                (ex_intro _ _ (conj eq_refl eq_refl))) as H.
  assert (Hstale :
    truthy (data (entry Voices (cached_at 1000 one_voice))) = false
    \/ time_time
         (world 5000 (inl (Exception "All connection attempts failed"))
            (inl (Exception "")))
       - timestamp (entry Voices (cached_at 1000 one_voice)) >= 3600).
  { right. vm_compute. discriminate. }
  specialize (H Hstale
    (fails_in_transit
       (world 5000 (inl (Exception "All connection attempts failed"))
          (inl (Exception "")))
       Voices (Exception "All connection attempts failed") eq_refl)).
  split; [exact (proj1 H) | exact (proj1 (proj2 H))].
Defined.

(** ** The shared-secret gate *)

Lemma verify_n8n_secret_unfold env supplied s :
  verify_n8n_secret env supplied s =
    match N8N_SECRET_KEY env with
    | None | Some "" => (inl server_misconfigured, s)
    | Some key =>
        if bool_decide (supplied = Some key) then (inr true, s)
        else (inl forbidden, s)
    end.
Proof.
  unfold verify_n8n_secret, truthy_env.
  destruct (N8N_SECRET_KEY env) as [key|]; [|reflexivity].
  destruct key as [|a key]; [reflexivity|]. cbn [String.eqb negb].
  destruct (decide (supplied = Some (String a key))) as [Heq|Hne].
  - rewrite (bool_decide_eq_false_2 _ (fun H => H Heq)).
    rewrite (bool_decide_eq_true_2 _ Heq). reflexivity.
  - rewrite (bool_decide_eq_true_2 _ Hne).
    rewrite (bool_decide_eq_false_2 _ Hne). reflexivity.
Qed.

Lemma secret_opens_the_gate env req s key :
  N8N_SECRET_KEY env = Some key -> key <> "" ->
  x_n8n_secret req = Some key ->
  serve env POST_api_upload_image req s =
    match form_uid req, form_image_file req with
    | Some uid, Some image_file =>
        upload_image_from_n8n env uid image_file true s
    | _, _ => (inl RequestValidationError, s)
    end.
Proof.
  intros Hkey Hne Heq.
  unfold serve, mbind, M_bind. rewrite verify_n8n_secret_unfold, Hkey.
  destruct key; [congruence|].
  rewrite (bool_decide_eq_true_2 _ Heq).
  destruct (form_uid req), (form_image_file req); reflexivity.
Qed.

Lemma handle_parsed env r i s :
  body_fault i = None -> handle env r i s = serve env r (request i) s.
Proof.
  intros Hbody. unfold handle. rewrite Hbody.
  destruct (reads_body r) as [[]|]; reflexivity.
Qed.

Lemma handle_without_body env r i s :
  reads_body r = None -> handle env r i s = serve env r (request i) s.
Proof. intros Hr. unfold handle. rewrite Hr. reflexivity. Qed.

(** C3, as the specification words it, fails on the code for a request
    whose multipart body cannot be parsed: the body is read before the
    secret is looked at, and the answer is 400 whatever the header says,
    here for a header that differs from the configured secret. *)
Lemma unparsable_upload_is_not_forbidden :
  N8N_SECRET_KEY (world 0 (inl (Exception "")) (inl (Exception "")))
    = Some "s3cret"
  /\ x_n8n_secret (request (unparsable "Missing boundary in multipart."
                              (upload (Some "guess"))))
     = Some "guess"
  /\ handle (world 0 (inl (Exception "")) (inl (Exception "")))
       POST_api_upload_image
       (unparsable "Missing boundary in multipart." (upload (Some "guess")))
       start
     = (inl (HTTPException 400 "Missing boundary in multipart." []), start)
  /\ status_of
       (handle (world 0 (inl (Exception "")) (inl (Exception "")))
          POST_api_upload_image
          (unparsable "Missing boundary in multipart."
             (upload (Some "guess")))
          start).1 <> 403.
Proof.
  repeat split. discriminate.
Qed.

(** C3 (amended).  On POST /api/upload-image, for a request whose
    multipart body can be parsed: without a configured secret (the
    variable unset or empty) the answer is 500; with a configured secret and
    a header that is absent or different from it the answer is 403 and the
    state, hence the file store, is untouched; with a header equal to the
    configured secret the request goes on to the handler.  A request whose
    body cannot be parsed is answered 400 before the secret is looked at,
    and the state is untouched as well.  Conversely a request that wrote
    anything had a body that parsed and presented exactly the configured
    secret. *)
Theorem upload_requires_the_secret env i s :
  (forall detail,
     body_fault i = Some detail ->
     handle env POST_api_upload_image i s
       = (inl (HTTPException 400 detail []), s))
  /\ (body_fault i = None ->
      (N8N_SECRET_KEY env = None \/ N8N_SECRET_KEY env = Some "" ->
       handle env POST_api_upload_image i s = (inl server_misconfigured, s))
      /\ (forall key,
            N8N_SECRET_KEY env = Some key -> key <> "" ->
            x_n8n_secret (request i) <> Some key ->
            handle env POST_api_upload_image i s = (inl forbidden, s))
      /\ (forall key,
            N8N_SECRET_KEY env = Some key -> key <> "" ->
            x_n8n_secret (request i) = Some key ->
            handle env POST_api_upload_image i s =
              match form_uid (request i), form_image_file (request i) with
              | Some uid, Some image_file =>
                  upload_image_from_n8n env uid image_file true s
              | _, _ => (inl RequestValidationError, s)
              end))
  /\ ((handle env POST_api_upload_image i s).2 <> s ->
      body_fault i = None
      /\ exists key,
           N8N_SECRET_KEY env = Some key /\ key <> ""
           /\ x_n8n_secret (request i) = Some key).
Proof.
  split; [|split].
  - intros detail Hfault. unfold handle. rewrite Hfault. reflexivity.
  - intros Hbody. rewrite (handle_parsed _ _ _ _ Hbody).
    split; [|split].
    + unfold serve, mbind, M_bind. rewrite verify_n8n_secret_unfold.
      intros [-> | ->]; reflexivity.
    + intros key Hkey Hne Hdiff.
      unfold serve, mbind, M_bind. rewrite verify_n8n_secret_unfold, Hkey.
      destruct key; [congruence|].
      rewrite (bool_decide_eq_false_2 _ Hdiff). reflexivity.
    + intros key Hkey Hne Heq.
      exact (secret_opens_the_gate _ _ _ _ Hkey Hne Heq).
  - destruct (body_fault i) as [detail|] eqn:Hbody.
    + unfold handle. rewrite Hbody. intros H. contradiction H. reflexivity.
    + rewrite (handle_parsed _ _ _ _ Hbody).
      unfold serve, mbind, M_bind. rewrite verify_n8n_secret_unfold.
      destruct (N8N_SECRET_KEY env) as [key|];
        [|intros H; contradiction H; reflexivity].
      destruct key as [|a key]; [intros H; contradiction H; reflexivity|].
      destruct (decide (x_n8n_secret (request i) = Some (String a key)))
        as [Heq|Hne].
      * intros _. split; [reflexivity|]. exists (String a key).
        repeat split; [discriminate|assumption].
      * rewrite (bool_decide_eq_false_2 _ Hne).
        intros H; contradiction H; reflexivity.
Qed.

Lemma upload_requires_the_secret_witness :
  let env := world 0 (inl (Exception "")) (inl (Exception "")) in
  handle env POST_api_upload_image (parsed (upload (Some "guess"))) start
  = (inl forbidden, start)
  /\ handle env POST_api_upload_image (parsed (upload None)) start
     = (inl forbidden, start)
  /\ (handle env POST_api_upload_image (parsed (upload (Some "s3cret")))
        start).1
     = inr (JObj [("imageUrl",
              JStr "http://localhost:8000/static/images/123e4567-e89b-42d3-a456-426614174000.png")])
  /\ handle env POST_api_upload_image
       (unparsable "Missing boundary in multipart." (upload (Some "s3cret")))
       start
     = (inl (HTTPException 400 "Missing boundary in multipart." []), start)
  /\ (body_fault (parsed (upload (Some "s3cret"))) = None
      /\ exists key,
           N8N_SECRET_KEY env = Some key /\ key <> ""
           /\ x_n8n_secret (request (parsed (upload (Some "s3cret"))))
              = Some key).
Proof.
  cbv zeta.
  pose proof (upload_requires_the_secret
                (world 0 (inl (Exception "")) (inl (Exception "")))
                (parsed (upload (Some "guess"))) start)
    as (_ & Hguess & _).
  pose proof (upload_requires_the_secret
                (world 0 (inl (Exception "")) (inl (Exception "")))
                (parsed (upload None)) start)
    as (_ & Hnone & _).
  pose proof (upload_requires_the_secret
                (world 0 (inl (Exception "")) (inl (Exception "")))
                (parsed (upload (Some "s3cret"))) start)
    as (_ & Hgood & Honly).
  pose proof (upload_requires_the_secret
                (world 0 (inl (Exception "")) (inl (Exception "")))
                (unparsable "Missing boundary in multipart."
                   (upload (Some "s3cret"))) start)
    as (Hfault & _).
  destruct (Hguess eq_refl) as (_ & Hguess' & _).
  destruct (Hnone eq_refl) as (_ & Hnone' & _).
  destruct (Hgood eq_refl) as (_ & _ & Hgood').
  split; [|split; [|split; [|split]]].
  - apply (Hguess' "s3cret"); [reflexivity|discriminate|discriminate].
  - apply (Hnone' "s3cret"); [reflexivity|discriminate|discriminate].
  - rewrite (Hgood' "s3cret");
      [reflexivity|reflexivity|discriminate|reflexivity].
  - exact (Hfault _ eq_refl).
  - apply Honly. intros Hsame. apply (f_equal calls) in Hsame.
    discriminate Hsame.
Defined.

(** ** The bearer gate *)

Lemma serve_protected env r req s e :
  bearer_protected r = true ->
  current_user env req s = (inl e, s) ->
  serve env r req s = (inl e, s).
Proof.
  intros Hr Hcu.
  destruct r; try discriminate Hr;
    unfold serve, mbind, M_bind; rewrite Hcu; reflexivity.
Qed.




(** ** The automation proxy *)

Lemma proxy_to_n8n_unfold env body user_data s :
  proxy_to_n8n env body user_data s =
    let s' := log_call (webhook_call body user_data) s in
    match client_post env n8n_webhook_url (outgoing body user_data) with
    | inl (TimeoutException _) => (inl gateway_timeout, s')
    | inl e => (inl (webhook_failed (str e)), s')
    | inr r =>
        if is_success r then (inr (JStr (resp_text r)), s')
        else (inl (webhook_failed (resp_error r)), s')
    end.
Proof.
  unfold proxy_to_n8n, try_except, http_post, mbind, M_bind, emit, lift.
  fold (outgoing body user_data). fold (webhook_call body user_data).
  cbv zeta.
  destruct (client_post env n8n_webhook_url (outgoing body user_data))
    as [e|r].
  - destruct e; reflexivity.
  - unfold raise_for_status. destruct (is_success r); reflexivity.
Qed.

Lemma serve_n8n env req user_data s :
  verified env req user_data ->
  serve env POST_api_n8n req s =
    match N8NBody_validate (json_body req) with
    | Some body => proxy_to_n8n env body user_data s
    | None => (inl RequestValidationError, s)
    end.
Proof.
  intros Hv. unfold serve, mbind, M_bind.
  rewrite (current_user_verified _ _ _ _ Hv).
  destruct (N8NBody_validate (json_body req)); reflexivity.
Qed.

Lemma proxy_to_n8n_calls env body user_data s :
  calls (proxy_to_n8n env body user_data s).2
  = calls s ++ [webhook_call body user_data].
Proof.
  rewrite proxy_to_n8n_unfold. cbv zeta.
  destruct (client_post env n8n_webhook_url (outgoing body user_data))
    as [e|r].
  - destruct e; reflexivity.
  - destruct (is_success r); reflexivity.
Qed.

(** Validation reads the seven declared fields only. *)
Lemma N8NBody_validate_ignores_uid raw spoofed :
  N8NBody_validate (<["uid" := spoofed]> raw) = N8NBody_validate raw.
Proof.
  unfold N8NBody_validate, field_str, field_opt_str, field_opt_int.
  rewrite !lookup_insert_ne by discriminate. reflexivity.
Qed.

Lemma verified_with_body env raw req user_data :
  verified env req user_data -> verified env (with_body raw req) user_data.
Proof. intros (token & Hauth & Hver). exists token. split; assumption. Qed.

(** C5.  On an authenticated POST /api/n8n the one call made is the post to
    the webhook, and the [uid] of its payload is the [uid] claim of the
    decoded bearer token.  A [uid] in the body of the request has no
    influence at all: replacing or adding it changes neither the outcome
    nor the state, hence not the payload that was sent. *)
Theorem webhook_uid_is_the_verified_uid env req user_data s :
  verified env req user_data ->
  (forall body,
     N8NBody_validate (json_body req) = Some body ->
     calls (serve env POST_api_n8n req s).2
       = calls s ++ [HttpPost n8n_webhook_url (outgoing body user_data) 60]
     /\ outgoing body user_data !! "uid" = Some (dict_get user_data "uid"))
  /\ (N8NBody_validate (json_body req) = None ->
      calls (serve env POST_api_n8n req s).2 = calls s)
  /\ (forall spoofed,
        serve env POST_api_n8n
          (with_body (<["uid" := spoofed]> (json_body req)) req) s
        = serve env POST_api_n8n req s).
Proof.
  intros Hv. split; [|split].
  - intros body Hbody. split.
    + rewrite (serve_n8n _ _ _ _ Hv), Hbody. apply proxy_to_n8n_calls.
    + unfold outgoing. apply lookup_insert_eq.
  - intros Hnone. rewrite (serve_n8n _ _ _ _ Hv), Hnone. reflexivity.
  - intros spoofed.
    rewrite (serve_n8n _ _ _ _ (verified_with_body _ _ _ _ Hv)).
    rewrite (serve_n8n _ _ _ _ Hv). cbn [json_body with_body].
    rewrite N8NBody_validate_ignores_uid. reflexivity.
Qed.

Lemma webhook_uid_is_the_verified_uid_witness :
  let env := world 0 (inl (Exception "")) (inr (ok_response "ok" JNull)) in
  (calls (serve env POST_api_n8n (chat "token-alice" spoofing) start).2
   = [HttpPost n8n_webhook_url (outgoing hello_body alice) 60]
   /\ outgoing hello_body alice !! "uid" = Some (JStr "uid-alice"))
  /\ calls (serve env POST_api_n8n (chat "token-alice" ∅) start).2 = [].
Proof.
  cbv zeta.
  pose proof (webhook_uid_is_the_verified_uid
                (world 0 (inl (Exception "")) (inr (ok_response "ok" JNull)))
                (chat "token-alice" spoofing) alice start
                (ex_intro _ _ (conj eq_refl eq_refl))) as (Hsent & _ & _).
  pose proof (webhook_uid_is_the_verified_uid
                (world 0 (inl (Exception "")) (inr (ok_response "ok" JNull)))
                (chat "token-alice" ∅) alice start
                (ex_intro _ _ (conj eq_refl eq_refl))) as (_ & Hnone & _).
  split.
  - exact (Hsent hello_body eq_refl).
  - exact (Hnone eq_refl).
Defined.

Lemma length_append (a b : string) :
  String.length (a +:+ b) = (String.length a + String.length b)%nat.
Proof.
  induction a as [|c a IH]; [reflexivity|].
  change (S (String.length (a +:+ b))
          = S (String.length a + String.length b)).
  now rewrite IH.
Qed.

Lemma escape_length c : (1 <= String.length (escape c))%nat.
Proof.
  unfold escape.
  repeat match goal with
         | |- context [if ?b then _ else _] => destruct b
         end; cbn; lia.
Qed.

Lemma escape_all_length s :
  (String.length s <= String.length (escape_all s))%nat.
Proof.
  induction s as [|c s IH]; [reflexivity|].
  cbn [escape_all String.length]. rewrite length_append.
  pose proof (escape_length c). lia.
Qed.

(** A JSON string is at least two characters longer than the text it
    encodes: it is never that text. *)
Lemma encode_basestring_length s :
  (String.length s + 2 <= String.length (encode_basestring s))%nat.
Proof.
  unfold encode_basestring. cbn [String.length].
  rewrite length_append. cbn [String.length].
  pose proof (escape_all_length s). lia.
Qed.

Lemma encode_basestring_differs s : encode_basestring s <> s.
Proof.
  intros Heq. pose proof (encode_basestring_length s) as Hlen.
  rewrite Heq in Hlen. lia.
Qed.

(** C6, as the specification words it, fails on the code: the handler
    returns the text of the webhook's response as a [str], and the response
    carries its JSON encoding.  For a webhook that answers [hola], four
    bytes, the body sent is the six bytes of [hola] between double
    quotes. *)
Lemma relayed_text_is_quoted :
  resp_text (ok_response "hola" JNull) = "hola"
  /\ success_body
       (handle (world 0 (inl (Exception ""))
                  (inr (ok_response "hola" JNull)))
          POST_api_n8n (parsed (chat "token-alice" hello)) start).1
     = Some (String quote ("hola" +:+ String quote EmptyString))
  /\ success_body
       (handle (world 0 (inl (Exception ""))
                  (inr (ok_response "hola" JNull)))
          POST_api_n8n (parsed (chat "token-alice" hello)) start).1
     <> Some "hola".
Proof.
  repeat split. discriminate.
Qed.

(** C6 (amended).  On an authenticated POST /api/n8n with a valid body, the
    webhook is posted to with a timeout of 60 seconds.  When the call times
    out the answer is 504; when it fails in any other way, or the webhook
    answers with a non-success status, the answer is 502 with the text of
    the error in its detail; when it succeeds the handler returns the text
    of the webhook's response without decoding it, and the answer is 200
    with that text encoded as one JSON string in its body: quoted and
    escaped, never the raw text. *)
Theorem webhook_outcomes env i user_data body s :
  body_fault i = None ->
  verified env (request i) user_data ->
  N8NBody_validate (json_body (request i)) = Some body ->
  calls (handle env POST_api_n8n i s).2
    = calls s ++ [HttpPost n8n_webhook_url (outgoing body user_data) 60]
  /\ (forall msg,
        client_post env n8n_webhook_url (outgoing body user_data)
          = inl (TimeoutException msg) ->
        (handle env POST_api_n8n i s).1 =
          inl (HTTPException 504
                 "Timeout: n8n tardó demasiado en responder." []))
  /\ (forall e,
        client_post env n8n_webhook_url (outgoing body user_data) = inl e ->
        is_timeout e = false ->
        (handle env POST_api_n8n i s).1 =
          inl (HTTPException 502 ("Error al contactar n8n: " +:+ str e) []))
  /\ (forall r,
        client_post env n8n_webhook_url (outgoing body user_data) = inr r ->
        is_success r = false ->
        (handle env POST_api_n8n i s).1 =
          inl (HTTPException 502
                 ("Error al contactar n8n: " +:+ resp_error r) []))
  /\ (forall r,
        client_post env n8n_webhook_url (outgoing body user_data) = inr r ->
        is_success r = true ->
        (handle env POST_api_n8n i s).1 = inr (JStr (resp_text r))
        /\ status_of (handle env POST_api_n8n i s).1 = 200
        /\ success_body (handle env POST_api_n8n i s).1
           = Some (String quote
                     (escape_all (resp_text r) +:+ String quote EmptyString))
        /\ success_body (handle env POST_api_n8n i s).1
           <> Some (resp_text r)).
Proof.
  intros Hparsed Hv Hbody.
  rewrite (handle_parsed _ _ _ _ Hparsed), (serve_n8n _ _ _ _ Hv), Hbody.
  split; [apply proxy_to_n8n_calls|].
  rewrite proxy_to_n8n_unfold. cbv zeta.
  split; [|split; [|split]].
  - intros msg ->. reflexivity.
  - intros e -> He. destruct e; try reflexivity. discriminate He.
  - intros r -> ->. reflexivity.
  - intros r -> ->. cbn [fst success_body response_body dumps status_of].
    repeat split.
    intros [=Heq]. exact (encode_basestring_differs _ Heq).
Qed.

Lemma webhook_outcomes_witness :
  (success_body
     (handle (world 0 (inl (Exception ""))
                (inr (ok_response "hola, alice" JNull)))
        POST_api_n8n (parsed (chat "token-alice" hello)) start).1
   = Some (String quote ("hola, alice" +:+ String quote EmptyString)))
  /\ (handle (world 0 (inl (Exception ""))
               (inl (TimeoutException "ReadTimeout")))
        POST_api_n8n (parsed (chat "token-alice" hello)) start).1
     = inl (HTTPException 504
              "Timeout: n8n tardó demasiado en responder." [])
  /\ (handle (world 0 (inl (Exception ""))
               (inl (Exception "Connection refused")))
        POST_api_n8n (parsed (chat "token-alice" hello)) start).1
     = inl (HTTPException 502
              "Error al contactar n8n: Connection refused" [])
  /\ (handle (world 0 (inl (Exception "")) (inr unavailable))
        POST_api_n8n (parsed (chat "token-alice" hello)) start).1
     = inl (HTTPException 502
              "Error al contactar n8n: Server error 503" []).
Proof.
  split; [|split; [|split]].
  - pose proof (webhook_outcomes
                  (world 0 (inl (Exception ""))
                     (inr (ok_response "hola, alice" JNull)))
                  (parsed (chat "token-alice" hello)) alice hello_body start
                  eq_refl (ex_intro _ _ (conj eq_refl eq_refl)) eq_refl)
      as (_ & _ & _ & _ & Hok).
    exact (proj1 (proj2 (proj2
             (Hok (ok_response "hola, alice" JNull) eq_refl eq_refl)))).
  - pose proof (webhook_outcomes
                  (world 0 (inl (Exception ""))
                     (inl (TimeoutException "ReadTimeout")))
                  (parsed (chat "token-alice" hello)) alice hello_body start
                  eq_refl (ex_intro _ _ (conj eq_refl eq_refl)) eq_refl)
      as (_ & Htimeout & _).
    exact (Htimeout "ReadTimeout" eq_refl).
  - pose proof (webhook_outcomes
                  (world 0 (inl (Exception ""))
                     (inl (Exception "Connection refused")))
                  (parsed (chat "token-alice" hello)) alice hello_body start
                  eq_refl (ex_intro _ _ (conj eq_refl eq_refl)) eq_refl)
      as (_ & _ & Hfail & _).
    exact (Hfail (Exception "Connection refused") eq_refl eq_refl).
  - pose proof (webhook_outcomes
                  (world 0 (inl (Exception "")) (inr unavailable))
                  (parsed (chat "token-alice" hello)) alice hello_body start
                  eq_refl (ex_intro _ _ (conj eq_refl eq_refl)) eq_refl)
      as (_ & _ & _ & Hstatus & _).
    exact (Hstatus unavailable eq_refl eq_refl).
Defined.

(** ** The upload receiver *)

Example splitext_png : splitext "photo.png" = ("photo", ".png").
Proof. reflexivity. Qed.

Example splitext_last_dot : splitext "archive.tar.gz" = ("archive.tar", ".gz").
Proof. reflexivity. Qed.

Example splitext_hidden : splitext ".bashrc" = (".bashrc", "").
Proof. reflexivity. Qed.

Example splitext_directory_dot : splitext "a.b/name" = ("a.b/name", "").
Proof. reflexivity. Qed.

(** The loop needs no more fuel than the distance to the last dot. *)
Lemma skip_leading_dots_fuel (n : nat) (p : string) (i d : Z) :
  (Z.to_nat (d - i) <= n)%nat ->
  skip_leading_dots n p i d = skip_leading_dots (Z.to_nat (d - i)) p i d.
Proof.
  revert i. induction n as [|n IH]; intros i Hn.
  - replace (Z.to_nat (d - i)) with 0%nat by lia. reflexivity.
  - destruct (Z.ltb_spec i d) as [Hlt|Hge].
    + replace (Z.to_nat (d - i)) with (S (Z.to_nat (d - (i + 1)))) by lia.
      cbn [skip_leading_dots].
      destruct (i <? d); [|reflexivity].
      destruct (negb _); [reflexivity|].
      apply IH. lia.
    + replace (Z.to_nat (d - i)) with 0%nat by lia.
      cbn [skip_leading_dots].
      destruct (Z.ltb_spec i d); [lia|reflexivity].
Qed.







(** ** Identity is a gate only *)

(** C8.  Two authenticated requests to the same catalog endpoint, made in
    the same state and at the same time, have the same outcome and leave
    the same state, whoever the two verified users are: the claims of the
    user take no part in the answer. *)
Theorem catalog_ignores_identity k env req1 req2 user1 user2 s :
  verified env req1 user1 ->
  verified env req2 user2 ->
  serve env (catalog_route k) req1 s = serve env (catalog_route k) req2 s.
Proof.
  intros Hv1 Hv2.
  rewrite (serve_catalog _ _ _ _ _ Hv1), (serve_catalog _ _ _ _ _ Hv2).
  reflexivity.
Qed.

Lemma catalog_ignores_identity_witness :
  serve (world 2000 (inr (ok_response "" two_voices)) (inl (Exception "")))
    GET_api_voices (bearer "token-alice") (cached_at 1000 one_voice)
  = serve (world 2000 (inr (ok_response "" two_voices)) (inl (Exception "")))
      GET_api_voices (bearer "token-bob") (cached_at 1000 one_voice).
Proof.
  exact (catalog_ignores_identity Voices
           (world 2000 (inr (ok_response "" two_voices)) (inl (Exception "")))
           (bearer "token-alice") (bearer "token-bob") alice bob
           (cached_at 1000 one_voice)
           (ex_intro _ _ (conj eq_refl eq_refl))
           (ex_intro _ _ (conj eq_refl eq_refl))).
Defined.

(** ** Falsy payloads *)

Lemma entry_put_entry k c s : entry k (put_entry k c s) = c.
Proof. destruct k; reflexivity. Qed.

Lemma falsy_is_a_miss env c :
  truthy (data c) = false -> served_from_cache env c = false.
Proof. intros H. apply served_from_cache_false. left. exact H. Qed.

(** A catalog request that returned a falsy value has just stored it. *)
Lemma returned_falsy_is_stored env k req user_data s v s' :
  verified env req user_data ->
  serve env (catalog_route k) req s = (inr v, s') ->
  truthy v = false ->
  entry k s' = {| data := v; timestamp := time_time env |}.
Proof.
  intros Hv Hserve Hfalsy.
  rewrite (serve_catalog _ _ _ _ _ Hv) in Hserve.
  destruct (served_from_cache env (entry k s)) eqn:Hhit.
  - apply served_from_cache_true in Hhit as [Ht _].
    injection Hserve as <- _. congruence.
  - cbv zeta in Hserve.
    destruct (client_get env (catalog_url k)) as [e|r]; [discriminate|].
    destruct (is_success r); [|discriminate].
    destruct (resp_json r) as [msg|w]; [discriminate|].
    injection Hserve as <- <-. apply entry_put_entry.
Qed.

(** C9.  The test for a cached payload is a truth-value test.  In a state
    whose stored payload is falsy, a catalog request invokes the upstream
    fetch whatever the clock reads, also when [now - fetchedAt < 3600].
    So once a successful fetch has returned and stored a falsy value (an
    empty object, an empty array, null), the next request fetches again:
    that value is never served from the cache. *)
Theorem falsy_payload_is_never_served k env req user_data s :
  verified env req user_data ->
  (truthy (data (entry k s)) = false ->
   calls (serve env (catalog_route k) req s).2
     = calls s ++ [fetch_call env k])
  /\ (forall env0 req0 user0 s0 v,
        verified env0 req0 user0 ->
        serve env0 (catalog_route k) req0 s0 = (inr v, s) ->
        truthy v = false ->
        entry k s = {| data := v; timestamp := time_time env0 |}
        /\ calls (serve env (catalog_route k) req s).2
           = calls s ++ [fetch_call env k]).
Proof.
  intros Hv. split.
  - intros Hfalsy.
    apply (miss_invokes_fetch _ _ _ _ _ Hv), falsy_is_a_miss, Hfalsy.
  - intros env0 req0 user0 s0 v Hv0 Hserve Hfalsy.
    pose proof (returned_falsy_is_stored _ _ _ _ _ _ _ Hv0 Hserve Hfalsy)
      as Hentry.
    split; [exact Hentry|].
    apply (miss_invokes_fetch _ _ _ _ _ Hv), falsy_is_a_miss.
    rewrite Hentry. exact Hfalsy.
Qed.

Lemma falsy_payload_is_never_served_witness :
  let env0 := world 1000 (inr (ok_response "{}" (JObj [])))
                (inl (Exception "")) in
  let env := world 1001 (inr (ok_response "{}" (JObj [])))
               (inl (Exception "")) in
  let s := (serve env0 GET_api_avatars (bearer "token-alice") start).2 in
  (time_time env - timestamp (entry Avatars (cached_at 1000 (JObj []))) < 3600
   /\ calls (serve env GET_api_avatars (bearer "token-bob")
               (cached_at 1000 (JObj []))).2
      = [fetch_call env Avatars])
  /\ (entry Avatars s = {| data := JObj []; timestamp := 1000 |}
      /\ calls (serve env GET_api_avatars (bearer "token-bob") s).2
         = [fetch_call env0 Avatars; fetch_call env Avatars]).
Proof.
  cbv zeta. split.
  - split; [reflexivity|].
    exact (proj1 (falsy_payload_is_never_served Avatars
                    (world 1001 (inr (ok_response "{}" (JObj [])))
                       (inl (Exception "")))
                    (bearer "token-bob") bob (cached_at 1000 (JObj []))
                    (ex_intro _ _ (conj eq_refl eq_refl))) eq_refl).
  - exact (proj2 (falsy_payload_is_never_served Avatars
                    (world 1001 (inr (ok_response "{}" (JObj [])))
                       (inl (Exception "")))
                    (bearer "token-bob") bob
                    (serve
                       (world 1000 (inr (ok_response "{}" (JObj [])))
                          (inl (Exception "")))
                       GET_api_avatars (bearer "token-alice") start).2
                    (ex_intro _ _ (conj eq_refl eq_refl)))
             (world 1000 (inr (ok_response "{}" (JObj [])))
                (inl (Exception "")))
             (bearer "token-alice") alice start (JObj [])
             (ex_intro _ _ (conj eq_refl eq_refl)) eq_refl eq_refl).
Defined.

(** ** What each handler leaves alone *)

Lemma current_user_outcome env req s :
  exists outcome, current_user env req s = (outcome, s).
Proof.
  exists (current_user env req s).1.
  rewrite <- (current_user_state env req s) at 3.
  apply surjective_pairing.
Qed.

Ltac through_the_gate env req s :=
  unfold serve, mbind, M_bind;
  let outcome := fresh "outcome" in
  let H := fresh "Hgate" in
  destruct (current_user_outcome env req s) as [outcome H];
  rewrite H; destruct outcome as [?e|?user_data]; [reflexivity|].

Lemma get_voices_keeps_avatars env req s :
  avatars_cache (serve env GET_api_voices req s).2 = avatars_cache s.
Proof.
  through_the_gate env req s.
  rewrite get_voices_unfold.
  destruct (served_from_cache env (voices_cache s)); [reflexivity|].
  cbv zeta. destruct (client_get env (catalog_url Voices)) as [e|r];
    [reflexivity|].
  destruct (is_success r); [|reflexivity].
  destruct (resp_json r); reflexivity.
Qed.

Lemma get_avatars_keeps_voices env req s :
  voices_cache (serve env GET_api_avatars req s).2 = voices_cache s.
Proof.
  through_the_gate env req s.
  rewrite get_avatars_unfold.
  destruct (served_from_cache env (avatars_cache s)); [reflexivity|].
  cbv zeta. destruct (client_get env (catalog_url Avatars)) as [e|r];
    [reflexivity|].
  destruct (is_success r); [|reflexivity].
  destruct (resp_json r); reflexivity.
Qed.

Lemma others_keep_caches env r req s :
  r = GET_root \/ r = GET_api_me \/ r = POST_api_n8n
  \/ r = POST_api_upload_image ->
  voices_cache (serve env r req s).2 = voices_cache s
  /\ avatars_cache (serve env r req s).2 = avatars_cache s.
Proof.
  intros [-> | [-> | [-> | ->]]].
  - split; reflexivity.
  - split; through_the_gate env req s; reflexivity.
  - split; through_the_gate env req s;
      (destruct (N8NBody_validate (json_body req)) as [body|];
       [|reflexivity]);
      rewrite proxy_to_n8n_unfold; cbv zeta;
      (destruct (client_post env n8n_webhook_url (outgoing body user_data))
         as [e|resp]; [destruct e; reflexivity|]);
      destruct (is_success resp); reflexivity.
  - split; unfold serve, mbind, M_bind; rewrite verify_n8n_secret_unfold;
      (destruct (N8N_SECRET_KEY env) as [[|a key]|]; try reflexivity);
      (destruct (bool_decide _); [|reflexivity]);
      (destruct (form_uid req), (form_image_file req); try reflexivity);
      rewrite upload_image_from_n8n_unfold;
      (destruct (_ <? _)%nat; [reflexivity|]);
      destruct (open_fault env _); reflexivity.
Qed.

(** C10.  On a cache hit a catalog request leaves the whole state as it
    was, the stored timestamp included: expiry counts from the fetch and
    does not slide.  GET /api/voices never changes the avatars entry, GET
    /api/avatars never changes the voices entry, and /api/me, /api/n8n and
    /api/upload-image change neither, whatever the request and its
    outcome. *)
Theorem handlers_frame env req s :
  (forall k user_data,
     verified env req user_data ->
     truthy (data (entry k s)) = true ->
     time_time env - timestamp (entry k s) < 3600 ->
     (serve env (catalog_route k) req s).2 = s)
  /\ avatars_cache (serve env GET_api_voices req s).2 = avatars_cache s
  /\ voices_cache (serve env GET_api_avatars req s).2 = voices_cache s
  /\ (forall r,
        r = GET_api_me \/ r = POST_api_n8n \/ r = POST_api_upload_image ->
        voices_cache (serve env r req s).2 = voices_cache s
        /\ avatars_cache (serve env r req s).2 = avatars_cache s).
Proof.
  split; [|split; [|split]].
  - intros k user_data Hv Ht Hage.
    rewrite (hit_serves_cache _ _ _ _ _ Hv); [reflexivity|].
    apply served_from_cache_true. split; assumption.
  - apply get_voices_keeps_avatars.
  - apply get_avatars_keeps_voices.
  - intros r Hr. apply others_keep_caches. right. exact Hr.
Qed.

Lemma handlers_frame_witness :
  let env := world 4599 (inl (Exception "unreachable")) (inl (Exception "")) in
  (serve env GET_api_voices (bearer "token-alice")
     (cached_at 1000 one_voice)).2
  = cached_at 1000 one_voice
  /\ voices_cache
       (serve env POST_api_upload_image (upload (Some "s3cret"))
          (cached_at 1000 one_voice)).2
     = {| data := one_voice; timestamp := 1000 |}.
Proof.
  cbv zeta. split.
  - exact (proj1 (handlers_frame
                    (world 4599 (inl (Exception "unreachable"))
                       (inl (Exception "")))
                    (bearer "token-alice") (cached_at 1000 one_voice))
             Voices alice (ex_intro _ _ (conj eq_refl eq_refl))
             eq_refl eq_refl).
  - exact (proj1 (proj2 (proj2 (proj2 (handlers_frame
                    (world 4599 (inl (Exception "unreachable"))
                       (inl (Exception "")))
                    (upload (Some "s3cret")) (cached_at 1000 one_voice))))
             POST_api_upload_image (or_intror (or_intror eq_refl)))).
Defined.

(** * Further properties *)

(** ** The cache over two requests *)

Lemma entry_log_call k c s : entry k (log_call c s) = entry k s.
Proof. destruct k; reflexivity. Qed.

Lemma calls_put_entry k c s : calls (put_entry k c s) = calls s.
Proof. destruct k; reflexivity. Qed.

(** X1.  A refresh followed by a request less than 3600 seconds later:
    the second request is answered with the payload the first one fetched,
    leaves the state as the first one left it, and the upstream was called
    once in all. *)
Theorem refresh_then_hit k env1 env2 req1 req2 user1 user2 s v :
  verified env1 req1 user1 ->
  verified env2 req2 user2 ->
  truthy (data (entry k s)) = false
  \/ time_time env1 - timestamp (entry k s) >= 3600 ->
  fetch_gives env1 k v ->
  truthy v = true ->
  time_time env2 - time_time env1 < 3600 ->
  serve env2 (catalog_route k) req2 (serve env1 (catalog_route k) req1 s).2
    = (inr v, (serve env1 (catalog_route k) req1 s).2)
  /\ (serve env1 (catalog_route k) req1 s).1 = inr v
  /\ calls (serve env1 (catalog_route k) req1 s).2
     = calls s ++ [fetch_call env1 k].
Proof.
  intros Hv1 Hv2 Hmiss Hfetch Htruthy Hage.
  apply served_from_cache_false in Hmiss.
  rewrite (miss_refreshes _ _ _ _ _ _ Hv1 Hmiss Hfetch). cbn [fst snd].
  split; [|split; [reflexivity|]].
  - rewrite (hit_serves_cache _ _ _ _ _ Hv2).
    + rewrite entry_put_entry. reflexivity.
    + apply served_from_cache_true. rewrite entry_put_entry.
      split; assumption.
  - rewrite calls_put_entry. reflexivity.
Qed.

Lemma refresh_then_hit_witness :
  let env1 := world 1000 (inr (ok_response "" one_voice)) (inl (Exception "")) in
  let env2 := world 4599 (inl (Exception "down")) (inl (Exception "")) in
  serve env2 GET_api_voices (bearer "token-bob")
    (serve env1 GET_api_voices (bearer "token-alice") start).2
  = (inr one_voice, (serve env1 GET_api_voices (bearer "token-alice") start).2).
Proof.
  cbv zeta.
  exact (proj1 (refresh_then_hit Voices
                  (world 1000 (inr (ok_response "" one_voice))
                     (inl (Exception "")))
                  (world 4599 (inl (Exception "down")) (inl (Exception "")))
                  (bearer "token-alice") (bearer "token-bob") alice bob
                  start one_voice
                  (ex_intro _ _ (conj eq_refl eq_refl))
                  (ex_intro _ _ (conj eq_refl eq_refl))
                  (or_introl eq_refl)
                  (ex_intro _ (ok_response "" one_voice)
                     (conj eq_refl (conj eq_refl eq_refl)))
                  eq_refl eq_refl)).
Defined.

(** X2.  What a catalog endpoint answers with, when it answers at all, is
    the payload that its cache entry holds afterwards, and that entry is
    less than 3600 seconds old: either the entry was already there, truthy,
    and nothing changed, or the value has just been fetched.  A stale
    payload is never handed out, not even when the upstream is down. *)
Theorem served_payload_is_fresh k env req user_data s v s' :
  verified env req user_data ->
  serve env (catalog_route k) req s = (inr v, s') ->
  data (entry k s') = v
  /\ time_time env - timestamp (entry k s') < 3600
  /\ (s' = s /\ truthy v = true
      \/ fetch_gives env k v /\ timestamp (entry k s') = time_time env).
Proof.
  intros Hv Hserve.
  rewrite (serve_catalog _ _ _ _ _ Hv) in Hserve.
  destruct (served_from_cache env (entry k s)) eqn:Hhit.
  - apply served_from_cache_true in Hhit as [Ht Hage].
    injection Hserve as <- <-. repeat split; [assumption|].
    left. split; [reflexivity|assumption].
  - cbv zeta in Hserve.
    destruct (client_get env (catalog_url k)) as [e|r] eqn:Hget;
      [discriminate|].
    destruct (is_success r) eqn:Hok; [|discriminate].
    destruct (resp_json r) as [msg|w] eqn:Hjson; [discriminate|].
    injection Hserve as <- <-. rewrite entry_put_entry. cbn [data timestamp].
    repeat split; [lia|].
    right. split; [|reflexivity]. exists r. repeat split; assumption.
Qed.

Lemma served_payload_is_fresh_witness :
  let env := world 4599 (inl (Exception "down")) (inl (Exception "")) in
  data (entry Avatars (cached_at 1000 one_voice)) = one_voice
  /\ time_time env - timestamp (entry Avatars (cached_at 1000 one_voice))
     < 3600.
Proof.
  cbv zeta.
  pose proof (served_payload_is_fresh Avatars
                (world 4599 (inl (Exception "down")) (inl (Exception "")))
                (bearer "token-alice") alice (cached_at 1000 one_voice)
                one_voice (cached_at 1000 one_voice)
                (ex_intro _ _ (conj eq_refl eq_refl)) eq_refl)
    as (Hdata & Hage & _).
  split; [exact Hdata|exact Hage].
Defined.

(** X3.  A failed fetch is not remembered.  After a catalog request whose
    fetch failed, the next request to the same endpoint, at the same or a
    later clock reading, calls the upstream again: during an outage every
    request reaches the upstream. *)
Theorem failed_fetch_is_retried k env1 env2 req1 req2 user1 user2 s msg :
  verified env1 req1 user1 ->
  verified env2 req2 user2 ->
  truthy (data (entry k s)) = false
  \/ time_time env1 - timestamp (entry k s) >= 3600 ->
  fetch_fails env1 k msg ->
  time_time env1 <= time_time env2 ->
  calls (serve env2 (catalog_route k) req2
           (serve env1 (catalog_route k) req1 s).2).2
  = calls s ++ [fetch_call env1 k; fetch_call env2 k].
Proof.
  intros Hv1 Hv2 Hmiss Hfail Hlater.
  pose proof Hmiss as Hmiss1. apply served_from_cache_false in Hmiss1.
  rewrite (miss_fails _ _ _ _ _ _ Hv1 Hmiss1 Hfail). cbn [snd].
  rewrite (miss_invokes_fetch _ _ _ _ _ Hv2).
  - cbn [calls log_call]. rewrite <- app_assoc. reflexivity.
  - apply served_from_cache_false. rewrite entry_log_call.
    destruct Hmiss as [Hfalsy|Hstale]; [left; assumption|right; lia].
Qed.

Lemma failed_fetch_is_retried_witness :
  let env1 := world 5000 (inl (Exception "down")) (inl (Exception "")) in
  let env2 := world 5001 (inl (Exception "down")) (inl (Exception "")) in
  calls (serve env2 GET_api_voices (bearer "token-bob")
           (serve env1 GET_api_voices (bearer "token-alice")
              (cached_at 1000 one_voice)).2).2
  = [fetch_call env1 Voices; fetch_call env2 Voices].
Proof.
  cbv zeta.
  assert (Hstale :
    truthy (data (entry Voices (cached_at 1000 one_voice))) = false
    \/ time_time (world 5000 (inl (Exception "down")) (inl (Exception "")))
       - timestamp (entry Voices (cached_at 1000 one_voice)) >= 3600).
  { right. vm_compute. discriminate. }
  assert (Hlater :
    time_time (world 5000 (inl (Exception "down")) (inl (Exception "")))
    <= time_time (world 5001 (inl (Exception "down")) (inl (Exception "")))).
  { vm_compute. discriminate. }
  exact (failed_fetch_is_retried Voices
           (world 5000 (inl (Exception "down")) (inl (Exception "")))
           (world 5001 (inl (Exception "down")) (inl (Exception "")))
           (bearer "token-alice") (bearer "token-bob") alice bob
           (cached_at 1000 one_voice) "down"
           (ex_intro _ _ (conj eq_refl eq_refl))
           (ex_intro _ _ (conj eq_refl eq_refl))
           Hstale
           (fails_in_transit
              (world 5000 (inl (Exception "down")) (inl (Exception "")))
              Voices (Exception "down") eq_refl)
           Hlater).
Defined.

(** ** What one request does to the state *)

Lemma current_user_inv env req s user_data s' :
  current_user env req s = (inr user_data, s') ->
  verified env req user_data.
Proof.
  unfold current_user, security_scheme, mbind, M_bind.
  destruct (authorization req) as [token|] eqn:Hauth; [|discriminate]. cbn.
  unfold get_current_user, try_except, mbind, M_bind, lift.
  destruct (verify_id_token env (credentials token)) as [e|u] eqn:Hver;
    [discriminate|].
  intros H. injection H as <- _. exists token. split; assumption.
Qed.

Lemma catalog_leaves env k req s :
  leaves env (catalog_route k) req s (serve env (catalog_route k) req s).2.
Proof.
  destruct (current_user_outcome env req s) as [[e|user_data] Hgate].
  - rewrite (serve_protected env (catalog_route k) req s e);
      [constructor|destruct k; reflexivity|assumption].
  - pose proof (current_user_inv _ _ _ _ _ Hgate) as Hv.
    rewrite (serve_catalog _ _ _ _ _ Hv).
    destruct (served_from_cache env (entry k s)) eqn:Hmiss; [constructor|].
    cbv zeta.
    destruct (client_get env (catalog_url k)) as [e|r] eqn:Hget;
      [eapply leaves_failed_fetch; eauto|].
    destruct (is_success r) eqn:Hok;
      [|eapply leaves_failed_fetch; eauto].
    destruct (resp_json r) as [msg|v] eqn:Hjson;
      [eapply leaves_failed_fetch; eauto|].
    eapply leaves_refreshed; eauto. exists r. auto.
Qed.

Lemma request_leaves env r req s :
  leaves env r req s (serve env r req s).2.
Proof.
  destruct r.
  - constructor.
  - destruct (current_user_outcome env req s) as [[e|user_data] Hgate].
    + rewrite (serve_protected env GET_api_me req s e);
        [constructor|reflexivity|assumption].
    + unfold serve, mbind, M_bind. rewrite Hgate. constructor.
  - apply (catalog_leaves env Voices).
  - apply (catalog_leaves env Avatars).
  - destruct (current_user_outcome env req s) as [[e|user_data] Hgate].
    + rewrite (serve_protected env POST_api_n8n req s e);
        [constructor|reflexivity|assumption].
    + pose proof (current_user_inv _ _ _ _ _ Hgate) as Hv.
      rewrite (serve_n8n _ _ _ _ Hv).
      destruct (N8NBody_validate (json_body req)) as [body|] eqn:Hbody;
        [|constructor].
      replace (proxy_to_n8n env body user_data s).2
        with (log_call (webhook_call body user_data) s).
      * eapply leaves_posted; eauto.
      * rewrite proxy_to_n8n_unfold. cbv zeta.
        destruct (client_post env n8n_webhook_url (outgoing body user_data))
          as [e|resp]; [destruct e; reflexivity|].
        destruct (is_success resp); reflexivity.
  - unfold serve, mbind, M_bind. rewrite verify_n8n_secret_unfold.
    destruct (N8N_SECRET_KEY env) as [[|a key]|] eqn:Hkey; try constructor.
    destruct (decide (x_n8n_secret req = Some (String a key))) as [Heq|Hne].
    + rewrite (bool_decide_eq_true_2 _ Heq).
      destruct (form_uid req) as [uid|]; [|constructor].
      destruct (form_image_file req) as [image_file|] eqn:Hfile;
        [|constructor].
      rewrite upload_image_from_n8n_unfold.
      destruct (_ <? _)%nat; [constructor|].
      destruct (open_fault env _); [constructor|].
      apply leaves_uploaded; [reflexivity| |assumption].
      exists (String a key). repeat split; [assumption|discriminate|assumption].
    + rewrite (bool_decide_eq_false_2 _ Hne). constructor.
Qed.

(** X4.  Every request leaves the state in one of five ways: untouched;
    with one logged catalog call after a failed fetch by a verified user
    on a cache miss; with one logged catalog call and the entry of that
    catalog replaced by the fetched value and the current clock reading,
    again for a verified user on a miss; with one logged post to the
    webhook by a verified user with a valid body; or with one file
    written, and logged, by a caller that presented the configured secret.
    Nothing else ever changes the state. *)
Theorem serve_leaves env r req s :
  (serve env r req s).2 = s
  \/ (exists k user_data,
        r = catalog_route k
        /\ verified env req user_data
        /\ served_from_cache env (entry k s) = false
        /\ ((serve env r req s).2 = log_call (fetch_call env k) s
            \/ exists v,
                 fetch_gives env k v
                 /\ (serve env r req s).2
                    = put_entry k {| data := v; timestamp := time_time env |}
                        (log_call (fetch_call env k) s)))
  \/ (exists user_data body,
        r = POST_api_n8n
        /\ verified env req user_data
        /\ N8NBody_validate (json_body req) = Some body
        /\ (serve env r req s).2
           = log_call (webhook_call body user_data) s)
  \/ (exists image_file,
        r = POST_api_upload_image
        /\ authorized env req
        /\ form_image_file req = Some image_file
        /\ (serve env r req s).2
           = put_file (storage_path env image_file) (content image_file)
               (log_call
                  (FileWrite (storage_path env image_file)
                     (content image_file)) s)).
Proof.
  destruct (request_leaves env r req s)
    as [|k u Hr Hv Hmiss|k u v Hr Hv Hmiss Hfetch|u body Hr Hv Hbody
        |f Hr Hauth Hfile].
  - left. reflexivity.
  - right. left. exists k, u. repeat split; try assumption.
    left. reflexivity.
  - right. left. exists k, u. repeat split; try assumption.
    right. exists v. split; [assumption|reflexivity].
  - right. right. left. exists u, body. repeat split; assumption.
  - right. right. right. exists f. repeat split; assumption.
Qed.

(** ** Runs *)

Lemma run_snoc steps st s : run (steps ++ [st]) s = after st (run steps s).
Proof. unfold run. rewrite fold_left_app. reflexivity. Qed.

Lemma after_leaves st s :
  leaves (step_env st) (step_route st) (step_req st) s (after st s).
Proof. apply request_leaves. Qed.

(** X5.  The log of outbound calls and file writes only grows, and by at
    most one entry per request: no request makes two calls, and none
    erases the trace of an earlier one. *)
Theorem calls_grow_by_one_at_most steps s :
  exists made,
    calls (run steps s) = calls s ++ made
    /\ (length made <= length steps)%nat.
Proof.
  induction steps as [|st steps IH] using rev_ind.
  - exists []. split; [symmetry; apply app_nil_r|reflexivity].
  - destruct IH as (made & Hcalls & Hlen).
    rewrite run_snoc, length_app. cbn [length].
    destruct (after_leaves st (run steps s))
      as [|k u _ _ _|k u v _ _ _ _|u body _ _ _|f _ _ _].
    + exists made. split; [assumption|lia].
    + exists (made ++ [fetch_call (step_env st) k]).
      cbn [calls log_call]. rewrite Hcalls, <- app_assoc, length_app.
      cbn [length]. split; [reflexivity|lia].
    + exists (made ++ [fetch_call (step_env st) k]).
      rewrite calls_put_entry. cbn [calls log_call].
      rewrite Hcalls, <- app_assoc, length_app.
      cbn [length]. split; [reflexivity|lia].
    + exists (made ++ [webhook_call body u]).
      cbn [calls log_call]. rewrite Hcalls, <- app_assoc, length_app.
      cbn [length]. split; [reflexivity|lia].
    + exists (made ++ [FileWrite (storage_path (step_env st) f) (content f)]).
      cbn [calls log_call put_file]. rewrite Hcalls, <- app_assoc, length_app.
      cbn [length]. split; [reflexivity|lia].
Qed.

Lemma fetched_in_snoc steps st k c :
  fetched_in steps k c -> fetched_in (steps ++ [st]) k c.
Proof.
  intros (st0 & u & Hin & H). exists st0, u. split; [|exact H].
  apply in_or_app. left. exact Hin.
Qed.

(** X6.  Provenance of the cache.  After any sequence of requests, each
    cache entry is either the entry the server started with, or exactly
    what a verified catalog request of that sequence fetched successfully
    from the upstream, stamped with the clock reading of that request.  No
    unverified request, no failed fetch and no other endpoint ever writes
    a cache entry. *)
Theorem cache_provenance steps k s :
  entry k (run steps s) = entry k s
  \/ fetched_in steps k (entry k (run steps s)).
Proof.
  induction steps as [|st steps IH] using rev_ind; [left; reflexivity|].
  rewrite run_snoc.
  destruct (after_leaves st (run steps s))
    as [|k' u _ _ _|k' u v Hr Hv _ Hfetch|u body _ _ _|f _ _ _].
  - destruct IH as [IH|IH]; [left; exact IH|right].
    apply fetched_in_snoc, IH.
  - rewrite entry_log_call.
    destruct IH as [IH|IH]; [left; exact IH|right].
    apply fetched_in_snoc, IH.
  - destruct k, k'; cbn [entry put_entry put_voices put_avatars log_call
                          voices_cache avatars_cache].
    + right. exists st, u. cbn [data timestamp].
      split; [apply in_or_app; right; left; reflexivity|]. auto.
    + destruct IH as [IH|IH]; [left; exact IH|right].
      apply fetched_in_snoc, IH.
    + destruct IH as [IH|IH]; [left; exact IH|right].
      apply fetched_in_snoc, IH.
    + right. exists st, u. cbn [data timestamp].
      split; [apply in_or_app; right; left; reflexivity|]. auto.
  - rewrite entry_log_call.
    destruct IH as [IH|IH]; [left; exact IH|right].
    apply fetched_in_snoc, IH.
  - replace (entry k (put_file _ _ _)) with (entry k (run steps s))
      by (destruct k; reflexivity).
    destruct IH as [IH|IH]; [left; exact IH|right].
    apply fetched_in_snoc, IH.
Qed.

Lemma uploaded_in_snoc steps st path bytes :
  uploaded_in steps path bytes -> uploaded_in (steps ++ [st]) path bytes.
Proof.
  intros (st0 & f & Hin & H). exists st0, f. split; [|exact H].
  apply in_or_app. left. exact Hin.
Qed.

(** X7.  Provenance of the files.  After any sequence of requests, a file
    of the store that was not there at the start, or whose bytes differ,
    holds the bytes of an upload of that sequence that presented the
    configured secret, under the path made from that upload's identifier
    and extension.  No other endpoint and no unauthorized request writes a
    file. *)
Theorem file_provenance steps s path bytes :
  files (run steps s) !! path = Some bytes ->
  files s !! path = Some bytes \/ uploaded_in steps path bytes.
Proof.
  revert bytes.
  induction steps as [|st steps IH] using rev_ind; intros bytes;
    [left; assumption|].
  rewrite run_snoc.
  assert (Hkeep :
    files (run steps s) !! path = Some bytes ->
    files s !! path = Some bytes \/ uploaded_in (steps ++ [st]) path bytes).
  { intros H. destruct (IH _ H) as [H0|H0]; [left; exact H0|right].
    apply uploaded_in_snoc, H0. }
  destruct (after_leaves st (run steps s))
    as [|k u _ _ _|k u v _ _ _ _|u body _ _ _|f Hr Hauth Hfile];
    try exact Hkeep.
  - destruct k; exact Hkeep.
  - cbn [files put_file log_call].
    destruct (decide (storage_path (step_env st) f = path)) as [<-|Hne].
    + rewrite lookup_insert_eq. intros [= <-]. right.
      exists st, f. split; [apply in_or_app; right; left; reflexivity|].
      auto.
    + rewrite lookup_insert_ne by exact Hne. exact Hkeep.
Qed.

Lemma file_provenance_witness :
  let st := mkStep (world 0 (inl (Exception "")) (inl (Exception "")))
              POST_api_upload_image (upload (Some "s3cret")) in
  uploaded_in [mkStep (world 0 (inl (Exception "")) (inl (Exception "")))
                 GET_api_me (bearer "token-alice"); st]
    "static/images/123e4567-e89b-42d3-a456-426614174000.png"
    [Byte.x89; Byte.x50; Byte.x4e; Byte.x47].
Proof.
  cbv zeta.
  destruct (file_provenance
              [mkStep (world 0 (inl (Exception "")) (inl (Exception "")))
                 GET_api_me (bearer "token-alice");
               mkStep (world 0 (inl (Exception "")) (inl (Exception "")))
                 POST_api_upload_image (upload (Some "s3cret"))]
              start
              "static/images/123e4567-e89b-42d3-a456-426614174000.png"
              [Byte.x89; Byte.x50; Byte.x4e; Byte.x47] eq_refl)
    as [Hstart|Hup].
  - discriminate Hstart.
  - exact Hup.
Defined.

(** ** The extension of an uploaded name *)

Lemma rfind_from_lower c p i last :
  last < i -> last <= rfind_from c p i last.
Proof.
  revert i last. induction p as [|a p IH]; intros i last Hlt; cbn; [lia|].
  destruct (Ascii.eqb a c).
  - specialize (IH (i + 1) i). lia.
  - specialize (IH (i + 1) last). lia.
Qed.

(** No occurrence of [c] lies beyond the index that [rfind] returns. *)
Lemma rfind_from_last c p i last j :
  last < i ->
  String.get j p = Some c ->
  i + Z.of_nat j <= rfind_from c p i last.
Proof.
  revert i last j. induction p as [|a p IH]; intros i last j Hlt Hget;
    [discriminate|].
  cbn [rfind_from]. destruct j as [|j].
  - cbn in Hget. injection Hget as ->. rewrite Ascii.eqb_refl.
    pose proof (rfind_from_lower c p (i + 1) i). lia.
  - cbn [String.get] in Hget.
    destruct (Ascii.eqb a c).
    + pose proof (IH (i + 1) i j ltac:(lia) Hget). lia.
    + pose proof (IH (i + 1) last j ltac:(lia) Hget). lia.
Qed.

(** The index that [rfind] returns, when it returns one, holds [c]. *)
Lemma rfind_from_found c p i last :
  last < i ->
  rfind_from c p i last = last
  \/ i <= rfind_from c p i last
     /\ String.get (Z.to_nat (rfind_from c p i last - i)) p = Some c.
Proof.
  revert i last. induction p as [|a p IH]; intros i last Hlt;
    [left; reflexivity|].
  cbn [rfind_from]. destruct (Ascii.eqb a c) eqn:Hac.
  - apply Ascii.eqb_eq in Hac. subst a.
    destruct (IH (i + 1) i) as [Hr|[Hle Hget]]; [lia| |].
    + right. rewrite Hr. split; [lia|].
      replace (Z.to_nat (i - i)) with 0%nat by lia. reflexivity.
    + right. split; [lia|].
      replace (Z.to_nat (rfind_from c p (i + 1) i - i))
        with (S (Z.to_nat (rfind_from c p (i + 1) i - (i + 1)))) by lia.
      exact Hget.
  - destruct (IH (i + 1) last) as [Hr|[Hle Hget]]; [lia| |].
    + left. exact Hr.
    + right. split; [lia|].
      replace (Z.to_nat (rfind_from c p (i + 1) last - i))
        with (S (Z.to_nat (rfind_from c p (i + 1) last - (i + 1)))) by lia.
      exact Hget.
Qed.

Lemma get_in_range c p j :
  String.get j p = Some c -> (j < String.length p)%nat.
Proof.
  revert j. induction p as [|a p IH]; intros j Hget; [discriminate|].
  destruct j as [|j]; cbn; [lia|].
  cbn [String.get] in Hget. specialize (IH _ Hget). lia.
Qed.

Lemma get_slice_from p i j c :
  0 <= i ->
  String.get j (slice_from p i) = Some c ->
  String.get (j + Z.to_nat i) p = Some c.
Proof.
  unfold slice_from. intros Hi Hget.
  destruct (Nat.lt_ge_cases j (String.length p - Z.to_nat i)) as [Hlt|Hge].
  - rewrite <- (substring_correct1 p (Z.to_nat i) _ j Hlt). exact Hget.
  - rewrite (substring_correct2 p (Z.to_nat i) _ j Hge) in Hget.
    discriminate.
Qed.

Lemma without_app c a b :
  without c a -> without c b -> without c (a +:+ b).
Proof.
  unfold without. revert b. induction a as [|x a IH]; intros b Ha Hb j;
    [apply Hb|].
  change (String.get j (String x (a +:+ b)) <> Some c).
  destruct j as [|j].
  - exact (Ha 0%nat).
  - cbn [String.get]. apply IH; [|exact Hb].
    intros j'. exact (Ha (S j')).
Qed.

(** X8.  The extension that an upload keeps from the client's file name is
    either empty or a dot followed by characters none of which is a dot or
    a slash.  So whatever the client names its file, with directories or
    [..] in it, the name under which the bytes are stored has no slash of
    the client's making: when the drawn identifier has none, the file lands
    directly in [static/images/]. *)
Theorem extension_is_plain env image_file :
  without "/" (splitext (filename image_file)).2
  /\ ((splitext (filename image_file)).2 = ""
      \/ String.get 0 (splitext (filename image_file)).2 = Some "."%char
         /\ forall j,
              String.get j (splitext (filename image_file)).2
                = Some "."%char -> j = 0%nat)
  /\ (without "/" (uuid4 env) ->
      exists name,
        storage_path env image_file = "static/images/" +:+ name
        /\ without "/" name).
Proof.
  set (p := filename image_file).
  assert (Hslash : rfind "/" p = -1 \/ -1 < rfind "/" p).
  { pose proof (rfind_from_lower "/" p 0 (-1)). unfold rfind. lia. }
  assert (Hext : without "/" (splitext p).2
    /\ ((splitext p).2 = ""
        \/ String.get 0 (splitext p).2 = Some "."%char
           /\ forall j, String.get j (splitext p).2 = Some "."%char ->
                        j = 0%nat)).
  { unfold splitext.
    destruct (_ && _) eqn:Hcond; cbn [snd];
      [|split; [intros j; destruct j; discriminate|left; reflexivity]].
    apply andb_true_iff in Hcond as [Hgt _]. apply Z.gtb_lt in Hgt.
    assert (Hdot : 0 <= rfind "." p) by lia.
    split.
    - intros j Hget. apply (get_slice_from _ _ _ _ Hdot) in Hget.
      pose proof (rfind_from_last "/" p 0 (-1) _ ltac:(lia) Hget) as Hlast.
      unfold rfind in *. lia.
    - right.
      destruct (rfind_from_found "." p 0 (-1) ltac:(lia)) as [Hnone|[_ Hget]];
        [unfold rfind in *; lia|].
      rewrite Z.sub_0_r in Hget. fold (rfind "." p) in Hget.
      pose proof (get_in_range _ _ _ Hget) as Hrange.
      split.
      + unfold slice_from.
        rewrite (substring_correct1 p (Z.to_nat (rfind "." p)) _ 0%nat)
          by lia.
        exact Hget.
      + intros j Hj. apply (get_slice_from _ _ _ _ Hdot) in Hj.
        pose proof (rfind_from_last "." p 0 (-1) _ ltac:(lia) Hj) as Hlast.
        unfold rfind in *. lia. }
  destruct Hext as [Hno Hshape].
  split; [exact Hno|]. split; [exact Hshape|].
  intros Huuid. exists (uuid4 env +:+ (splitext p).2).
  split; [reflexivity|]. apply without_app; assumption.
Qed.

Lemma extension_is_plain_witness :
  exists name,
    storage_path (world 0 (inl (Exception "")) (inl (Exception "")))
      {| filename := "../../etc/cron.d/job.sh"; content := [] |}
    = "static/images/" +:+ name
    /\ without "/" name.
Proof.
  apply (extension_is_plain
           (world 0 (inl (Exception "")) (inl (Exception "")))
           {| filename := "../../etc/cron.d/job.sh"; content := [] |}).
  intros j. do 37 (destruct j as [|j]; [discriminate|]). destruct j; discriminate.
Defined.

(** ** Storing an upload *)















(** ** The answers of each route *)




(** X10.  A request that carries neither a bearer credential nor the
    secret header is turned away with an error on each of /api/me,
    /api/voices, /api/avatars, /api/n8n and /api/upload-image, whether or
    not its body can be parsed, and the state is not touched. *)
Theorem anonymous_is_turned_away env r i s :
  authorization (request i) = None ->
  x_n8n_secret (request i) = None ->
  r = GET_api_me \/ r = GET_api_voices \/ r = GET_api_avatars
  \/ r = POST_api_n8n \/ r = POST_api_upload_image ->
  exists e,
    handle env r i s = (inl e, s)
    /\ status_of (inl e : exc + json) <> 200.
Proof.
  intros Hauth Hsecret Hr.
  assert (Hgate : forall r',
    bearer_protected r' = true ->
    serve env r' (request i) s = (inl not_authenticated, s)).
  { intros r' Hprot. apply (serve_protected _ _ _ _ _ Hprot).
    exact (current_user_missing _ _ _ Hauth). }
  destruct Hr as [-> | [-> | [-> | [-> | ->]]]].
  - exists not_authenticated. rewrite handle_without_body by reflexivity.
    split; [apply Hgate; reflexivity|discriminate].
  - exists not_authenticated. rewrite handle_without_body by reflexivity.
    split; [apply Hgate; reflexivity|discriminate].
  - exists not_authenticated. rewrite handle_without_body by reflexivity.
    split; [apply Hgate; reflexivity|discriminate].
  - destruct (body_fault i) as [fault|] eqn:Hbody.
    + exists RequestValidationError. unfold handle. rewrite Hbody.
      split; [reflexivity|discriminate].
    + exists not_authenticated. rewrite (handle_parsed _ _ _ _ Hbody).
      split; [apply Hgate; reflexivity|discriminate].
  - destruct (body_fault i) as [fault|] eqn:Hbody.
    + exists (HTTPException 400 fault []). unfold handle. rewrite Hbody.
      split; [reflexivity|discriminate].
    + rewrite (handle_parsed _ _ _ _ Hbody).
      unfold serve, mbind, M_bind. rewrite verify_n8n_secret_unfold, Hsecret.
      destruct (N8N_SECRET_KEY env) as [[|a key]|]; eexists;
        (split; [reflexivity|discriminate]).
Qed.

Lemma anonymous_is_turned_away_witness :
  exists e,
    handle (world 0 (inr (ok_response "" one_voice)) (inl (Exception "")))
      GET_api_voices (parsed anonymous) start = (inl e, start)
    /\ status_of (inl e : exc + json) <> 200.
Proof.
  apply (anonymous_is_turned_away
           (world 0 (inr (ok_response "" one_voice)) (inl (Exception "")))
           GET_api_voices (parsed anonymous) start eq_refl eq_refl).
  right. left. reflexivity.
Defined.

(** ** The payload of the webhook *)

(** X11.  An authenticated POST /api/n8n with a valid body posts to the
    webhook, once, a payload that has the seven fields of the body and
    [uid], and no other key; each field carries the value of the body, an
    optional field that the body leaves out ([avatarId], [voiceId],
    [videoWidth], [videoHeight]) is sent as null, and so is [uid] when the
    decoded token has no such claim: the post is made all the same. *)
Theorem payload_has_eight_keys env i user_data body s :
  body_fault i = None ->
  verified env (request i) user_data ->
  N8NBody_validate (json_body (request i)) = Some body ->
  exists payload,
    calls (handle env POST_api_n8n i s).2
      = calls s ++ [HttpPost n8n_webhook_url payload 60]
    /\ dom payload = payload_keys
    /\ payload !! "message" = Some (JStr (message body))
    /\ payload !! "botId" = Some (JStr (botId body))
    /\ payload !! "type" = Some (JStr (type body))
    /\ payload !! "avatarId" = Some (opt_json JStr (avatarId body))
    /\ payload !! "voiceId" = Some (opt_json JStr (voiceId body))
    /\ payload !! "videoWidth" = Some (opt_json JNum (videoWidth body))
    /\ payload !! "videoHeight" = Some (opt_json JNum (videoHeight body))
    /\ payload !! "uid" = Some (dict_get user_data "uid")
    /\ (avatarId body = None -> payload !! "avatarId" = Some JNull)
    /\ (voiceId body = None -> payload !! "voiceId" = Some JNull)
    /\ (videoWidth body = None -> payload !! "videoWidth" = Some JNull)
    /\ (videoHeight body = None -> payload !! "videoHeight" = Some JNull)
    /\ (user_data !! "uid" = None -> payload !! "uid" = Some JNull).
Proof.
  intros Hparsed Hv Hbody. exists (outgoing body user_data).
  split.
  { rewrite (handle_parsed _ _ _ _ Hparsed), (serve_n8n _ _ _ _ Hv), Hbody.
    apply proxy_to_n8n_calls. }
  unfold outgoing, N8NBody_dict, payload_keys, dict_get.
  split.
  { cbn [list_to_map foldr fst snd].
    rewrite !dom_insert_L, dom_empty_L. set_solver. }
  repeat match goal with |- _ /\ _ => split end;
    first [reflexivity | intros ->; reflexivity].
Qed.

Lemma payload_has_eight_keys_witness :
  exists payload,
    calls (handle (world 0 (inl (Exception ""))
                     (inr (ok_response "ok" JNull)))
             POST_api_n8n (parsed (chat "token-alice" hello)) start).2
      = [HttpPost n8n_webhook_url payload 60]
    /\ payload !! "videoWidth" = Some JNull
    /\ payload !! "uid" = Some (JStr "uid-alice").
Proof.
  destruct (payload_has_eight_keys
              (world 0 (inl (Exception "")) (inr (ok_response "ok" JNull)))
              (parsed (chat "token-alice" hello)) alice hello_body start
              eq_refl (ex_intro _ _ (conj eq_refl eq_refl)) eq_refl)
    as (payload & Hcalls & _ & _ & _ & _ & _ & _ & _ & _ & Huid & _ & _
        & Hwidth & _).
  exists payload. split; [exact Hcalls|].
  split; [exact (Hwidth eq_refl)|exact Huid].
Defined.

(** X12.  A body that lacks one of the required fields [message], [botId]
    or [type] is refused with a validation error once the caller is
    verified, and nothing is posted to the webhook. *)
Theorem body_without_required_field env req user_data s :
  verified env req user_data ->
  json_body req !! "message" = None
  \/ json_body req !! "botId" = None
  \/ json_body req !! "type" = None ->
  serve env POST_api_n8n req s = (inl RequestValidationError, s).
Proof.
  intros Hv Hmissing. rewrite (serve_n8n _ _ _ _ Hv).
  replace (N8NBody_validate (json_body req)) with (@None N8NBody);
    [reflexivity|].
  unfold N8NBody_validate, field_str.
  destruct Hmissing as [->|[->| ->]]; [reflexivity| |].
  - destruct (json_body req !! "message") as [[]|]; reflexivity.
  - destruct (json_body req !! "message") as [[]|]; try reflexivity.
    destruct (json_body req !! "botId") as [[]|]; try reflexivity; cbn;
      destruct (field_opt_str _ "avatarId"); try reflexivity; cbn;
      destruct (field_opt_str _ "voiceId"); try reflexivity; cbn;
      destruct (field_opt_int _ "videoWidth"); try reflexivity; cbn;
      destruct (field_opt_int _ "videoHeight"); reflexivity.
Qed.

Lemma body_without_required_field_witness :
  serve (world 0 (inl (Exception "")) (inr (ok_response "ok" JNull)))
    POST_api_n8n (chat "token-alice" (delete "botId" hello)) start
  = (inl RequestValidationError, start).
Proof.
  apply (body_without_required_field
           (world 0 (inl (Exception "")) (inr (ok_response "ok" JNull)))
           (chat "token-alice" (delete "botId" hello)) alice start
           (ex_intro _ _ (conj eq_refl eq_refl))).
  right. left. reflexivity.
Defined.

(** X13.  What the proxy sends loses nothing of the body: the payload,
    read back as a body, is the body it was made from, with or without the
    [uid] that was added. *)
Theorem payload_reads_back body user_data :
  N8NBody_validate (N8NBody_dict body) = Some body
  /\ N8NBody_validate (outgoing body user_data) = Some body.
Proof.
  assert (Hdict : N8NBody_validate (N8NBody_dict body) = Some body).
  { destruct body as [m b [a|] [v|] [w|] [h|] t]; reflexivity. }
  split; [exact Hdict|].
  unfold outgoing. rewrite N8NBody_validate_ignores_uid. exact Hdict.
Qed.

(** ** The life of a cache entry *)

(** X14.  A truthy cache entry is never replaced within 3600 seconds of
    its fetch: whatever requests arrive in that time, on any route, by any
    caller, in any order, the entry is afterwards what it was. *)
Theorem entry_is_stable_within_ttl steps k s :
  truthy (data (entry k s)) = true ->
  (forall st, In st steps ->
     time_time (step_env st) - timestamp (entry k s) < 3600) ->
  entry k (run steps s) = entry k s.
Proof.
  intros Htruthy.
  induction steps as [|st steps IH] using rev_ind; intros Hages;
    [reflexivity|].
  assert (Hbefore : entry k (run steps s) = entry k s).
  { apply IH. intros st0 Hin. apply Hages, in_or_app. left. exact Hin. }
  assert (Hage : time_time (step_env st) - timestamp (entry k s) < 3600).
  { apply Hages, in_or_app. right. left. reflexivity. }
  rewrite run_snoc.
  destruct (after_leaves st (run steps s))
    as [|k' u _ _ _|k' u v _ _ Hmiss _|u body _ _ _|f _ _ _].
  - exact Hbefore.
  - rewrite entry_log_call. exact Hbefore.
  - destruct k, k'; try exact Hbefore;
      rewrite Hbefore in Hmiss;
      apply served_from_cache_false in Hmiss as [Hfalsy|Hstale];
      [congruence|lia|congruence|lia].
  - rewrite entry_log_call. exact Hbefore.
  - destruct k; exact Hbefore.
Qed.

Lemma entry_is_stable_within_ttl_witness :
  entry Voices
    (run [mkStep (world 2000 (inr (ok_response "" two_voices))
                    (inl (Exception "")))
            GET_api_voices (bearer "token-alice");
          mkStep (world 3000 (inr (ok_response "" two_voices))
                    (inr (ok_response "ok" JNull)))
            POST_api_n8n (chat "token-bob" hello);
          mkStep (world 4599 (inr (ok_response "" two_voices))
                    (inl (Exception "")))
            GET_api_voices anonymous]
       (cached_at 1000 one_voice))
  = {| data := one_voice; timestamp := 1000 |}.
Proof.
  apply (entry_is_stable_within_ttl
           [mkStep (world 2000 (inr (ok_response "" two_voices))
                      (inl (Exception "")))
              GET_api_voices (bearer "token-alice");
            mkStep (world 3000 (inr (ok_response "" two_voices))
                      (inr (ok_response "ok" JNull)))
              POST_api_n8n (chat "token-bob" hello);
            mkStep (world 4599 (inr (ok_response "" two_voices))
                      (inl (Exception "")))
              GET_api_voices anonymous]
           Voices (cached_at 1000 one_voice) eq_refl).
  intros st [<-|[<-|[<-|[]]]]; reflexivity.
Defined.

(** X15.  A catalog endpoint reads nothing of the state but its own cache
    entry: in two states that agree on that entry, the same request in the
    same world gets the same answer and leaves the same entry, whatever
    the other catalog's entry, the files and the log are. *)
Theorem catalog_reads_its_entry_only k env req s1 s2 :
  entry k s1 = entry k s2 ->
  (serve env (catalog_route k) req s1).1
    = (serve env (catalog_route k) req s2).1
  /\ entry k (serve env (catalog_route k) req s1).2
     = entry k (serve env (catalog_route k) req s2).2.
Proof.
  intros Hsame.
  assert (Hprot : bearer_protected (catalog_route k) = true)
    by (destruct k; reflexivity).
  destruct (authorization req) as [token|] eqn:Hauth.
  - destruct (verify_id_token env (credentials token)) as [e|u] eqn:Hver.
    + rewrite !(serve_protected _ _ _ _ _ Hprot
                 (current_user_rejected _ _ _ _ _ Hauth Hver)).
      split; [reflexivity|exact Hsame].
    + assert (Hv : verified env req u) by (exists token; split; assumption).
      rewrite !(serve_catalog _ _ _ _ _ Hv), Hsame.
      destruct (served_from_cache env (entry k s2));
        [split; [reflexivity|exact Hsame]|].
      cbv zeta.
      destruct (client_get env (catalog_url k)) as [e|r];
        [|destruct (is_success r); [destruct (resp_json r)|]];
        cbn [fst snd];
        rewrite ?entry_put_entry, ?entry_log_call;
        (split; [reflexivity|first [exact Hsame|reflexivity]]).
  - rewrite !(serve_protected _ _ _ _ _ Hprot
               (current_user_missing _ _ _ Hauth)).
    split; [reflexivity|exact Hsame].
Qed.

Lemma catalog_reads_its_entry_only_witness :
  (serve (world 2000 (inl (Exception "down")) (inl (Exception "")))
     GET_api_voices (bearer "token-alice") (cached_at 1000 one_voice)).1
  = (serve (world 2000 (inl (Exception "down")) (inl (Exception "")))
       GET_api_voices (bearer "token-alice")
       (put_avatars {| data := JNull; timestamp := 0 |}
          (cached_at 1000 one_voice))).1.
Proof.
  exact (proj1 (catalog_reads_its_entry_only Voices
                  (world 2000 (inl (Exception "down")) (inl (Exception "")))
                  (bearer "token-alice") (cached_at 1000 one_voice)
                  (put_avatars {| data := JNull; timestamp := 0 |}
                     (cached_at 1000 one_voice))
                  eq_refl)).
Defined.

(** ** The identity endpoint *)

(** X16.  /api/me answers from the [email] and [uid] claims of the decoded
    token alone, and touches nothing: two verified callers whose tokens
    agree on these two claims get the same answer in any two states.  A
    token without an [email] claim is not an error: the greeting is made
    with [None] in its place. *)
Theorem me_reads_two_claims env req1 req2 user1 user2 s1 s2 :
  verified env req1 user1 ->
  verified env req2 user2 ->
  user1 !! "uid" = user2 !! "uid" ->
  user1 !! "email" = user2 !! "email" ->
  (serve env GET_api_me req1 s1).1 = (serve env GET_api_me req2 s2).1
  /\ (serve env GET_api_me req1 s1).2 = s1
  /\ (user1 !! "email" = None ->
      (serve env GET_api_me req1 s1).1 =
        inr (JObj [("message",
               JStr ("¡Hola, " +:+ py_str env JNull
                     +:+ "! Tu UID de Firebase es: "
                     +:+ py_str env (dict_get user1 "uid")))])).
Proof.
  intros Hv1 Hv2 Huid Hemail.
  unfold serve, mbind, M_bind.
  rewrite (current_user_verified _ _ _ _ Hv1),
          (current_user_verified _ _ _ _ Hv2).
  unfold get_my_info, dict_get, mret, M_ret. cbn [fst snd].
  rewrite Huid, Hemail. split; [reflexivity|]. split; [reflexivity|].
  intros Hnone. rewrite Hnone. reflexivity.
Qed.

Lemma me_reads_two_claims_witness :
  (serve (world 0 (inl (Exception "")) (inl (Exception "")))
     GET_api_me (bearer "token-alice") start).1
  = inr (JObj [("message",
           JStr "¡Hola, alice@example.org! Tu UID de Firebase es: uid-alice")]).
Proof.
  rewrite (proj1 (me_reads_two_claims
                    (world 0 (inl (Exception "")) (inl (Exception "")))
                    (bearer "token-alice") (bearer "token-alice") alice alice
                    start (cached_at 1000 one_voice)
                    (ex_intro _ _ (conj eq_refl eq_refl))
                    (ex_intro _ _ (conj eq_refl eq_refl))
                    eq_refl eq_refl)).
  reflexivity.
Defined.
